(** * Sweep chat UI: the orchestration loop of [sweepai/app/ui.py]

    A shallow embedding of the event handlers of the chat interface
    ([repo_name_change], [file_names_change], [handle_message_submit],
    [handle_message_stream]) and the properties of the turn they implement.

    Modelling conventions.
    - Text is [string], holding the UTF-8 encoding of the Python string: a
      code point is one byte below 128, or a lead byte followed by
      continuation bytes (128 to 191).  Counting, replacing and splitting on
      a character below U+0080 are the same on the bytes; [strip], slicing,
      [len] and iteration go code point by code point.  [str.lower] is
      written out for ASCII text; on other text it follows Python's Unicode
      tables, which are a variable ([unicode_lower]) of the sections that
      use it.
    - A value produced by [json.loads] is a [json]; a Python dict is an
      association list in insertion order, looked up by its first match.
    - The remote client ([api_client]), [json.loads], [str] on parsed values
      and [Snippet.get_preview] are not part of this file's source: they are
      variables of the sections that use them.
    - A generator is a computation that logs what it yields: each [Yield]
      holds the chat history as it is at that suspension point (the source
      yields the same list object every time and mutates it in between, the
      UI renders it at each yield). *)

From Stdlib Require Import List String Ascii Bool Arith NArith ZArith Lia.
From Stdlib Require Import DecimalString.
Import ListNotations.
Local Open Scope list_scope.
Local Open Scope string_scope.

Set Implicit Arguments.
Set Warnings "-register-all".

(** ** Python strings *)

Module PyStr.

Definition nl_char : ascii := "010"%char.
Definition quote_char : ascii := "034"%char.
Definition backtick_char : ascii := "096"%char.
Definition backslash_char : ascii := "092"%char.

Definition nl : string := String nl_char EmptyString.
Definition backtick : string := String backtick_char EmptyString.
(** ["\\`"]: a backslash, then a backtick. *)
Definition escaped_backtick : string :=
  String backslash_char (String backtick_char EmptyString).

(** Truth value of a string: empty is false. *)
Definition truthy (s : string) : bool :=
  match s with
  | EmptyString => false
  | String _ _ => true
  end.

(** [str.isspace] on the characters of one byte: U+0009..U+000D and
    U+001C..U+0020. *)
Definition isspace (c : ascii) : bool :=
  let n := N_of_ascii c in
  ((9 <=? n) && (n <=? 13) || (28 <=? n) && (n <=? 32))%N.

(** [str.isspace] on the characters of two bytes: U+0085 (C2 85) and U+00A0
    (C2 A0). *)
Definition isspace2 (c1 c2 : ascii) : bool :=
  let a := N_of_ascii c1 in
  let b := N_of_ascii c2 in
  ((a =? 194) && ((b =? 133) || (b =? 160)))%N.

(** [str.isspace] on the characters of three bytes: U+1680 (E1 9A 80),
    U+2000..U+200A (E2 80 80 to E2 80 8A), U+2028 and U+2029 (E2 80 A8,
    E2 80 A9), U+202F (E2 80 AF), U+205F (E2 81 9F) and U+3000 (E3 80 80).
    No character of four bytes is a space. *)
Definition isspace3 (c1 c2 c3 : ascii) : bool :=
  let a := N_of_ascii c1 in
  let b := N_of_ascii c2 in
  let c := N_of_ascii c3 in
  ((a =? 225) && (b =? 154) && (c =? 128)
   || (a =? 226) && (b =? 128)
      && ((128 <=? c) && (c <=? 138) || (c =? 168) || (c =? 169) || (c =? 175))
   || (a =? 226) && (b =? 129) && (c =? 159)
   || (a =? 227) && (b =? 128) && (c =? 128))%N.

(** [s.lstrip()]: the leading space characters go, whatever their width. *)
Fixpoint lstrip (s : string) : string :=
  match s with
  | EmptyString => EmptyString
  | String c1 s1 =>
      if isspace c1 then lstrip s1
      else
        match s1 with
        | EmptyString => s
        | String c2 s2 =>
            if isspace2 c1 c2 then lstrip s2
            else
              match s2 with
              | EmptyString => s
              | String c3 s3 => if isspace3 c1 c2 c3 then lstrip s3 else s
              end
        end
  end.

(** [s.isspace()] or [s] is empty: nothing but space characters. *)
Definition blank (s : string) : bool :=
  match lstrip s with
  | EmptyString => true
  | String _ _ => false
  end.

(** [s.rstrip()]: the text is cut where nothing but space characters follow. *)
Fixpoint rstrip (s : string) : string :=
  match s with
  | EmptyString => EmptyString
  | String c s' => if blank s then EmptyString else String c (rstrip s')
  end.

(** [s.strip()] *)
Definition strip (s : string) : string := rstrip (lstrip s).

(** [s.isascii()]: every character is below U+0080. *)
Fixpoint isascii (s : string) : bool :=
  match s with
  | EmptyString => true
  | String c s' => (N_of_ascii c <? 128)%N && isascii s'
  end.

(** One character of [str.lower] below U+0080: A..Z move up by 32. *)
Definition lower_char (c : ascii) : ascii :=
  let n := N_of_ascii c in
  if ((65 <=? n) && (n <=? 90))%N then ascii_of_N (n + 32) else c.

Fixpoint map_chars (f : ascii -> ascii) (s : string) : string :=
  match s with
  | EmptyString => EmptyString
  | String c s' => String (f c) (map_chars f s')
  end.

(** [s.lower()]: character by character on ASCII text; on other text
    Python's Unicode tables decide ([unicode_lower]), where one character may
    become two and the letter before or after may matter. *)
Definition lower (unicode_lower : string -> string) (s : string) : string :=
  if isascii s then map_chars lower_char s else unicode_lower s.

(** [s.replace(a, b)] for a one-character [a]. *)
Fixpoint replace (a : ascii) (b : string) (s : string) : string :=
  match s with
  | EmptyString => EmptyString
  | String c s' =>
      if Ascii.eqb c a then b ++ replace a b s' else String c (replace a b s')
  end.

(** [s.count(a)] for a one-character [a]. *)
Fixpoint count (a : ascii) (s : string) : nat :=
  match s with
  | EmptyString => 0
  | String c s' => (if Ascii.eqb c a then 1 else 0) + count a s'
  end.

(** A byte that continues the character begun before it. *)
Definition is_continuation (c : ascii) : bool :=
  let n := N_of_ascii c in ((128 <=? n) && (n <=? 191))%N.

(** [len(s)]: the number of characters, one for each byte that begins one. *)
Fixpoint len (s : string) : nat :=
  match s with
  | EmptyString => 0
  | String c s' => (if is_continuation c then 0 else 1) + len s'
  end.

(** [s[:n]]: the first [n] characters, each with all its bytes. *)
Fixpoint take (n : nat) (s : string) : string :=
  match s with
  | EmptyString => EmptyString
  | String c s' =>
      if is_continuation c then String c (take n s')
      else
        match n with
        | O => EmptyString
        | S n' => String c (take n' s')
        end
  end.

(** The characters of [s], one string each. *)
Fixpoint chars (s : string) : list string :=
  match s with
  | EmptyString => []
  | String c s' =>
      match s' with
      | EmptyString => [String c EmptyString]
      | String c' _ =>
          if is_continuation c' then
            match chars s' with
            | [] => [String c EmptyString]
            | x :: rest => String c x :: rest
            end
          else String c EmptyString :: chars s'
      end
  end.

(** [sep.join(l)] *)
Fixpoint join (sep : string) (l : list string) : string :=
  match l with
  | [] => EmptyString
  | [x] => x
  | x :: rest => x ++ sep ++ join sep rest
  end.

(** [s.split(a)] for a one-character [a]: never empty, one more piece than
    there are separators. *)
Fixpoint split (a : ascii) (s : string) : list string :=
  match s with
  | EmptyString => [EmptyString]
  | String c s' =>
      if Ascii.eqb c a then EmptyString :: split a s'
      else match split a s' with
           | [] => [String c EmptyString]
           | p :: ps => String c p :: ps
           end
  end.

(** [str(n)] for a length. *)
Definition of_nat (n : nat) : string := NilEmpty.string_of_uint (Nat.to_uint n).

(** [u in s] on strings: [u] occurs in [s]. *)
Definition occurs_in (u s : string) : Prop :=
  exists pre post, s = pre ++ u ++ post.

Fixpoint occurs_inb (u s : string) : bool :=
  String.prefix u s
  || match s with
     | EmptyString => false
     | String _ s' => occurs_inb u s'
     end.

End PyStr.

(** ** Parsed JSON values and Python's operations on them *)

Inductive json : Type :=
| JNull
| JBool (b : bool)
| JNum (literal : string)
| JStr (s : string)
| JArr (items : list json)
| JObj (fields : list (string * json)).

(** A Python dict with string keys. *)
Definition dict : Type := list (string * json).

Inductive exn : Type :=
| AssertionError
| AttributeError
| IndexError
| KeyError
| TypeError
| NotImplementedError
| JSONDecodeError
| Exception (message : string)
| RemoteError (message : string).

(** The outcome of evaluating an expression or running a handler. *)
Inductive result (A : Type) : Type :=
| Ok (a : A)
| Raise (e : exn).
Arguments Ok {A} a.
Arguments Raise {A} e.

Module Py.

Fixpoint dict_get (k : string) (d : dict) : option json :=
  match d with
  | [] => None
  | (k', v) :: d' => if String.eqb k k' then Some v else dict_get k d'
  end.

(** [k in d] for a dict. *)
Definition dict_mem (k : string) (d : dict) : bool :=
  match dict_get k d with
  | Some _ => true
  | None => false
  end.

(** [d[k] = v]: replaces the value of an existing key in place, appends a new
    key. *)
Fixpoint dict_set (k : string) (v : json) (d : dict) : dict :=
  match d with
  | [] => [(k, v)]
  | (k', v') :: d' =>
      if String.eqb k k' then (k', v) :: d' else (k', v') :: dict_set k v d'
  end.

(** Truth value of a dict: empty is false. *)
Definition dict_truthy (d : dict) : bool :=
  match d with
  | [] => false
  | _ :: _ => true
  end.

Definition is_str (k : string) (v : json) : bool :=
  match v with
  | JStr s => String.eqb s k
  | _ => false
  end.

(** [k in v] for a string [k]: a key of a dict, an element of a list, a part
    of a string; a [TypeError] on the values that are no containers. *)
Definition contains (k : string) (v : json) : result bool :=
  match v with
  | JObj d => Ok (dict_mem k d)
  | JArr l => Ok (existsb (is_str k) l)
  | JStr s => Ok (PyStr.occurs_inb k s)
  | _ => Raise TypeError
  end.

(** [v[k]] for a string [k]: only a dict can be indexed by a string. *)
Definition getitem (v : json) (k : string) : result json :=
  match v with
  | JObj d =>
      match dict_get k d with
      | Some x => Ok x
      | None => Raise KeyError
      end
  | _ => Raise TypeError
  end.

(** [v[k] = x] for a string [k]. *)
Definition setitem (v : json) (k : string) (x : json) : result json :=
  match v with
  | JObj d => Ok (JObj (dict_set k x d))
  | _ => Raise TypeError
  end.

(** [for item in v]: the elements of a list, the keys of a dict, the
    characters of a string; a [TypeError] on the other values. *)
Definition iter (v : json) : result (list json) :=
  match v with
  | JArr l => Ok l
  | JObj d => Ok (map (fun kv => JStr (fst kv)) d)
  | JStr s =>
      Ok (map JStr (PyStr.chars s))
  | _ => Raise TypeError
  end.

End Py.

(** Evaluating a comprehension: the first element that raises ends it. *)
Fixpoint map_result {A B : Type} (f : A -> result B) (l : list A)
  : result (list B) :=
  match l with
  | [] => Ok []
  | x :: l' =>
      match f x with
      | Raise e => Raise e
      | Ok y =>
          match map_result f l' with
          | Raise e => Raise e
          | Ok ys => Ok (y :: ys)
          end
      end
  end.

(** ** The data of a chat session *)

(** [sweepai.core.entities.Snippet], as far as the UI reads it. *)
Record Snippet : Type := mkSnippet {
  denotation : string;
  snippet_content : string
}.

(** One row of the chatbot: [[user_message, assistant_message]], either of
    which may be [None]. *)
Definition chat_turn : Type := (option string * option string)%type.
Definition history : Type := list chat_turn.

(** A fragment of the assistant's stream.  [chunk_function_call] is [None]
    for an absent, null or empty [function_call] entry (all false in Python);
    the fields of a call are [None] when absent. *)
Record function_call : Type := mkCall {
  fc_name : option string;
  fc_arguments : option string
}.

Record chunk : Type := mkChunk {
  chunk_content : option string;
  chunk_function_call : option function_call
}.

(** What [api_client.stream_chat] returns: the fragments delivered, then the
    end of the stream or the exception that breaks it off. *)
Record stream : Type := mkStream {
  fragments : list chunk;
  failure : option exn
}.

(** The [pull_request] argument of [create_pr]. *)
Record pull_request : Type := mkPullRequest {
  pr_title : json;
  pr_content : json;
  pr_branch_name : json
}.

(** What a handler does that its caller can see, in order. *)
Inductive event : Type :=
| Yield (chat_history : history) (snippets_text : string)
| Search (query : option string) (k : Z)
| CreatePR (file_change_requests : list (json * json))
           (pr : pull_request) (messages : history)
| StreamChat (messages : history) (snippets : list Snippet).

(** The remote client, [sweepai.app.api_client.APIClient]. *)
Record APIClient : Type := mkClient {
  search : option string -> Z -> result (list Snippet);
  stream_chat : history -> list Snippet -> stream;
  create_pr : list (json * json) -> pull_request -> history -> result json;
  (** reads the repository name of the client's configuration *)
  get_installation_id : option string -> result Z
}.

(** ** Handlers as computations

    The state of a turn: the chat history list that the generator mutates in
    place, and the module-level [proposed_pr]. *)
Record state : Type := mkState {
  chat_history : history;
  proposed_pr : option dict
}.

Definition M (A : Type) : Type := state -> result A * state * list event.

Definition ret {A : Type} (a : A) : M A := fun s => (Ok a, s, []).

Definition bind {A B : Type} (m : M A) (f : A -> M B) : M B :=
  fun s =>
    match m s with
    | (Ok a, s1, t1) =>
        match f a s1 with
        | (r, s2, t2) => (r, s2, (t1 ++ t2)%list)
        end
    | (Raise e, s1, t1) => (Raise e, s1, t1)
    end.

Definition raise {A : Type} (e : exn) : M A := fun s => (Raise e, s, []).

Definition lift {A : Type} (r : result A) : M A := fun s => (r, s, []).

Definition emit (e : event) : M unit := fun s => (Ok tt, s, [e]).

Definition get : M state := fun s => (Ok s, s, []).

Definition put_history (h : history) : M unit :=
  fun s => (Ok tt, mkState h (proposed_pr s), []).

Definition put_proposed_pr (p : option dict) : M unit :=
  fun s => (Ok tt, mkState (chat_history s) p, []).

Declare Scope turn_scope.
Delimit Scope turn_scope with turn.
Notation "x <- m ;; k" := (bind m (fun x => k))
  (at level 100, m at next level, right associativity) : turn_scope.
Notation "' pat <- m ;; k" :=
  (bind m (fun x => match x with pat => k end))
  (at level 100, pat pattern, m at next level, right associativity)
  : turn_scope.
Notation "m ;; k" := (bind m (fun _ => k))
  (at level 100, right associativity) : turn_scope.
Local Open Scope turn_scope.

Definition outcome {A : Type} (r : result A * state * list event) : result A :=
  fst (fst r).
Definition final {A : Type} (r : result A * state * list event) : state :=
  snd (fst r).
Definition events {A : Type} (r : result A * state * list event) : list event :=
  snd r.

(** *** The last row of the history *)

(** [chat_history[-1]] *)
Fixpoint last_turn (h : history) : option chat_turn :=
  match h with
  | [] => None
  | [t] => Some t
  | _ :: h' => last_turn h'
  end.

(** [chat_history[-1][1] = v] on a non-empty history. *)
Fixpoint set_last (v : option string) (h : history) : option history :=
  match h with
  | [] => None
  | [(u, _)] => Some [(u, v)]
  | t :: h' =>
      match set_last v h' with
      | Some h'' => Some (t :: h'')
      | None => None
      end
  end.

(** [chat_history[-1][1] = v] *)
Definition set_assistant (v : string) : M unit :=
  s <- get ;;
  match set_last (Some v) (chat_history s) with
  | Some h => put_history h
  | None => raise IndexError
  end.

(** [chat_history[-1][0]] *)
Definition user_message : M (option string) :=
  s <- get ;;
  match last_turn (chat_history s) with
  | Some (u, _) => ret u
  | None => raise IndexError
  end.

(** [chat_history[-1][1] += token] *)
Definition append_assistant (token : string) : M unit :=
  s <- get ;;
  match last_turn (chat_history s) with
  | Some (_, Some a) => set_assistant (a ++ token)
  | Some (_, None) => raise TypeError
  | None => raise IndexError
  end.

(** [chat_history.append(t)] *)
Definition append_turn (t : chat_turn) : M unit :=
  s <- get ;; put_history (chat_history s ++ [t])%list.

(** [yield chat_history, snippets_text] *)
Definition yield (snippets_text : string) : M unit :=
  s <- get ;; emit (Yield (chat_history s) snippets_text).

(** ** [handle_message_submit] (lines 98-101)

    The text box update it also returns is presentation only. *)
Definition handle_message_submit
  (repo_full_name user_message : string) (h : history) : result history :=
  if PyStr.truthy repo_full_name
  then Ok (h ++ [(Some user_message, None)])%list
  else Raise (Exception "Set the repository name first").

(** ** [handle_message_stream] (lines 103-176) *)

Section Handler.

Variable api_client : APIClient.
(** [json.loads] *)
Variable json_loads : string -> result json.
(** [str(v)] for a parsed value that is no string. *)
Variable repr : json -> string.
(** [snippet.get_preview(n)] *)
Variable get_preview : Snippet -> Z -> string.
(** [str.lower] on text that is not all ASCII. *)
Variable unicode_lower : string -> string.

(** A value inside an f-string or [str.format]: a string stands for itself. *)
Definition fmt (v : json) : string :=
  match v with
  | JStr s => s
  | _ => repr v
  end.

(** [function_name] inside an f-string. *)
Definition fmt_name (n : option string) : string :=
  match n with
  | Some s => s
  | None => "None"
  end.

(** Line 107: [snippets_text and snippets_text.strip().count("\n") == 0] *)
Definition search_needed (snippets_text : string) : bool :=
  PyStr.truthy snippets_text
  && Nat.eqb (PyStr.count PyStr.nl_char (PyStr.strip snippets_text)) 0.

(** Line 119, one snippet. *)
Definition render_snippet (snippet : Snippet) : string :=
  denotation snippet ++ PyStr.nl ++ "```python" ++ PyStr.nl
  ++ PyStr.replace PyStr.backtick_char PyStr.escaped_backtick
       (get_preview snippet 5)
  ++ PyStr.nl ++ "```".

(** Lines 119-120. *)
Definition render_snippets (snippets : list Snippet) : string :=
  "### Relevant snippets:" ++ PyStr.nl
  ++ PyStr.join PyStr.nl (map render_snippet snippets ++ [])%list.

(** Lines 107-121: the snippets and the snippet block the rest of the turn
    goes on with. *)
Definition search_snippets (snippets_text : string)
  : M (list Snippet * string) :=
  if search_needed snippets_text then
    set_assistant "Searching for relevant snippets..." ;;
    yield snippets_text ;;
    query <- user_message ;;
    emit (Search query 3) ;;
    snippets <- lift (search api_client query 3) ;;
    set_assistant "Found relevant snippets." ;;
    let snippets_text := render_snippets snippets in
    yield snippets_text ;;
    ret (snippets, snippets_text)
  else ret ([], snippets_text).

(** [s in ("okay", "ok")] *)
Definition is_ok (s : string) : bool :=
  String.eqb s "okay" || String.eqb s "ok".

(** Line 124: the proposal to create, when the condition holds.  [and]
    evaluates the message only when [proposed_pr] is true. *)
Definition confirmation : M (option dict) :=
  s <- get ;;
  match proposed_pr s with
  | None => ret None
  | Some d =>
      if Py.dict_truthy d then
        u <- user_message ;;
        match u with
        | None => raise AttributeError
        | Some m =>
            if is_ok (PyStr.lower unicode_lower (PyStr.strip m))
            then ret (Some d)
            else ret None
        end
      else ret None
  end.

(** Line 128: [(item["file_path"], item["instructions"])] *)
Definition file_change_request (item : json) : result (json * json) :=
  match Py.getitem item "file_path" with
  | Raise e => Raise e
  | Ok file_path =>
      match Py.getitem item "instructions" with
      | Raise e => Raise e
      | Ok instructions => Ok (file_path, instructions)
      end
  end.

(** Line 128, the comprehension. *)
Definition file_change_requests (d : dict) : result (list (json * json)) :=
  match Py.getitem (JObj d) "plan" with
  | Raise e => Raise e
  | Ok plan =>
      match Py.iter plan with
      | Raise e => Raise e
      | Ok items => map_result file_change_request items
      end
  end.

Definition creating_pr : string := "⏳ Creating PR...".
Definition pr_created (url : json) : string := "✅ PR created at " ++ fmt url.

(** Lines 125-138. *)
Definition confirm_pr (d : dict) (snippets_text : string) : M unit :=
  set_assistant creating_pr ;;
  yield snippets_text ;;
  requests <- lift (file_change_requests d) ;;
  title <- lift (Py.getitem (JObj d) "title") ;;
  summary <- lift (Py.getitem (JObj d) "summary") ;;
  branch <- lift (Py.getitem (JObj d) "branch") ;;
  s <- get ;;
  let pr := mkPullRequest title summary branch in
  emit (CreatePR requests pr (chat_history s)) ;;
  response <- lift (create_pr api_client requests pr (chat_history s)) ;;
  url <- lift (Py.getitem response "html_url") ;;
  set_assistant (pr_created url) ;;
  yield snippets_text.

(** Line 156: [function_name or function_call.get("name")] *)
Definition or_name (function_name name : option string) : option string :=
  match function_name with
  | Some n => if PyStr.truthy n then function_name else name
  | None => name
  end.

(** Line 158. *)
Definition render_call (function_name : option string) (raw_arguments : string)
  : string :=
  "Calling function: `" ++ fmt_name function_name ++ "`" ++ PyStr.nl
  ++ "```json" ++ PyStr.nl ++ raw_arguments ++ PyStr.nl ++ "```".

(** [chunk.get("content")] as a condition and as the token. *)
Definition content_token (c : chunk) : option string :=
  match chunk_content c with
  | Some token => if PyStr.truthy token then Some token else None
  | None => None
  end.

(** Lines 150-159: the body of the loop. *)
Definition consume_chunk (snippets_text : string) (c : chunk)
  (function_name : option string) (raw_arguments : string)
  : M (option string * string) :=
  match content_token c with
   | Some token => append_assistant token ;; yield snippets_text
   | None => ret tt
   end ;;
  match chunk_function_call c with
  | Some call =>
      let function_name := or_name function_name (fc_name call) in
      match fc_arguments call with
      | None => raise TypeError
      | Some arguments =>
          let raw_arguments := raw_arguments ++ arguments in
          set_assistant (render_call function_name raw_arguments) ;;
          yield snippets_text ;;
          ret (function_name, raw_arguments)
      end
  | None => ret (function_name, raw_arguments)
  end.

(** Lines 149-159: [for chunk in stream]. *)
Fixpoint consume_chunks (snippets_text : string) (l : list chunk)
  (function_name : option string) (raw_arguments : string)
  : M (option string * string) :=
  match l with
  | [] => ret (function_name, raw_arguments)
  | c :: l' =>
      '(function_name, raw_arguments) <-
        consume_chunk snippets_text c function_name raw_arguments ;;
      consume_chunks snippets_text l' function_name raw_arguments
  end.

Definition consume_stream (snippets_text : string) (st : stream)
  : M (option string * string) :=
  '(function_name, raw_arguments) <-
    consume_chunks snippets_text (fragments st) (Some EmptyString)
      EmptyString ;;
  match failure st with
  | Some e => raise e
  | None => ret (function_name, raw_arguments)
  end.

(** Lines 19-27. *)
Definition pr_summary_template (title summary plan : string) : string :=
  "💡 I'll create the following PR:" ++ PyStr.nl ++ PyStr.nl
  ++ "**" ++ title ++ "**" ++ PyStr.nl
  ++ summary ++ PyStr.nl ++ PyStr.nl
  ++ "Here is my plan:" ++ PyStr.nl
  ++ plan ++ PyStr.nl ++ PyStr.nl
  ++ "Reply with " ++ String PyStr.quote_char "ok"
  ++ String PyStr.quote_char
       " to create the PR or anything else to propose changes.".

(** Line 167: [title.lower().replace(" ", "_").replace("-", "_")[:50]] on a
    string. *)
Definition derive_branch (title : string) : string :=
  PyStr.take 50
    (PyStr.replace "-"%char "_"
       (PyStr.replace " "%char "_" (PyStr.lower unicode_lower title))).

(** [assert k in arguments] *)
Definition assert_in (k : string) (arguments : json) : M unit :=
  present <- lift (Py.contains k arguments) ;;
  if present then ret tt else raise AssertionError.

(** Line 167, the right-hand side: [.lower()] exists on a string only. *)
Definition branch_of (title : json) : result string :=
  match title with
  | JStr t => Ok (derive_branch t)
  | _ => Raise AttributeError
  end.

(** Lines 166-167. *)
Definition default_branch (arguments : json) : M json :=
  present <- lift (Py.contains "branch" arguments) ;;
  if present then ret arguments
  else
    title <- lift (Py.getitem arguments "title") ;;
    branch <- lift (branch_of title) ;;
    lift (Py.setitem arguments "branch" (JStr branch)).

(** Line 171, one item of the plan. *)
Definition plan_line (item : json) : result string :=
  match Py.getitem item "file_path" with
  | Raise e => Raise e
  | Ok file_path =>
      match Py.getitem item "instructions" with
      | Raise e => Raise e
      | Ok instructions =>
          Ok ("* `" ++ fmt file_path ++ "`: " ++ fmt instructions)
      end
  end.

(** Lines 168-172: the message that replaces the assistant's. *)
Definition render_proposal (arguments : json) : M string :=
  title <- lift (Py.getitem arguments "title") ;;
  summary <- lift (Py.getitem arguments "summary") ;;
  plan <- lift (Py.getitem arguments "plan") ;;
  items <- lift (Py.iter plan) ;;
  lines <- lift (map_result plan_line items) ;;
  ret (pr_summary_template (fmt title) (fmt summary)
         (PyStr.join PyStr.nl lines)).

(** Line 174: [proposed_pr = arguments].  Only a dict gets here: the
    subscripts of the lines before raise on any other value (see
    [render_proposal_dict]). *)
Definition store_proposal (arguments : json) : M unit :=
  match arguments with
  | JObj d => put_proposed_pr (Some d)
  | _ => raise TypeError
  end.

(** Lines 163-174. *)
Definition propose_pr (arguments : json) (snippets_text : string) : M unit :=
  assert_in "title" arguments ;;
  assert_in "summary" arguments ;;
  assert_in "plan" arguments ;;
  arguments <- default_branch arguments ;;
  message <- render_proposal arguments ;;
  set_assistant message ;;
  yield snippets_text ;;
  store_proposal arguments.

(** Lines 160-176. *)
Definition finish_call (function_name : option string) (raw_arguments : string)
  (snippets_text : string) : M unit :=
  match function_name with
  | None => ret tt
  | Some name =>
      if PyStr.truthy name then
        arguments <- lift (json_loads raw_arguments) ;;
        if String.eqb name "create_pr" then propose_pr arguments snippets_text
        else raise NotImplementedError
      else ret tt
  end.

(** Lines 142-176. *)
Definition generate_response (snippets : list Snippet) (snippets_text : string)
  : M unit :=
  append_turn (None, Some "Fetching endpoint...") ;;
  yield snippets_text ;;
  set_assistant EmptyString ;;
  s <- get ;;
  emit (StreamChat (chat_history s) snippets) ;;
  '(function_name, raw_arguments) <-
    consume_stream snippets_text
      (stream_chat api_client (chat_history s) snippets) ;;
  finish_call function_name raw_arguments snippets_text.

(** Lines 123-176: what follows the search. *)
Definition reply (snippets : list Snippet) (snippets_text : string) : M unit :=
  confirmed <- confirmation ;;
  match confirmed with
  | Some d => confirm_pr d snippets_text
  | None => generate_response snippets snippets_text
  end.

(** The generator, run on the state that holds its [chat_history] argument. *)
Definition handle_message_stream (snippets_text repo_name : string) : M unit :=
  yield snippets_text ;;
  '(snippets, snippets_text) <- search_snippets snippets_text ;;
  reply snippets snippets_text.

End Handler.

(** ** The repository and file selectors (lines 45-96) *)

Module Selectors.

(** [SweepChatConfig], as far as the handlers touch it. *)
Record SweepChatConfig : Type := mkConfig {
  repo_full_name : option string;
  installation_id : option Z
}.

(** The module-level state behind the two dropdowns.  [config] is the one
    object that [api_client.config] also names; [saved] is what
    [config.save()] last stored; [path_to_contents] is read once at start-up
    (line 35). *)
Record app : Type := mkApp {
  config : SweepChatConfig;
  saved : SweepChatConfig;
  global_installation_id : option Z;
  opened_tabs : list string;
  path_to_contents : list (string * string);
  selected_files : list string;
  file_to_str : list (string * string)
}.

Fixpoint lookup (k : string) (m : list (string * string)) : option string :=
  match m with
  | [] => None
  | (k', v) :: m' => if String.eqb k k' then Some v else lookup k m'
  end.

Fixpoint store (k v : string) (m : list (string * string))
  : list (string * string) :=
  match m with
  | [] => [(k, v)]
  | (k', v') :: m' =>
      if String.eqb k k' then (k', v) :: m' else (k', v') :: store k v m'
  end.

Section RepoNameChange.

Variable api_client : APIClient.

(** Lines 50-67. *)
Definition repo_name_change (name : string) (a : app) : result string * app :=
  let failed (e : exn) (gid : option Z) : result string * app :=
    let c := mkConfig None None in
    (Raise e,
     mkApp c c gid
       (opened_tabs a ++ ["https://github.com/apps/sweep-ai"])%list
       (path_to_contents a) (selected_files a) (file_to_str a)) in
  match get_installation_id api_client (Some name) with
  | Raise e => failed e (global_installation_id a)
  | Ok id =>
      if Z.eqb id 0 then failed AssertionError (Some id)
      else
        let c := mkConfig (Some name) (Some id) in
        (Ok EmptyString,
         mkApp c c (Some id) (opened_tabs a)
           (path_to_contents a) (selected_files a) (file_to_str a))
  end.

End RepoNameChange.

(** Line 88. *)
Definition file_entry (file_name file_contents : string) : string :=
  let file_contents_split := PyStr.split PyStr.nl_char file_contents in
  let length := List.length file_contents_split in
  let preview :=
    PyStr.replace PyStr.backtick_char PyStr.escaped_backtick
      (PyStr.join PyStr.nl (firstn 3 file_contents_split)) in
  file_name ++ ":0:" ++ PyStr.of_nat length ++ PyStr.nl
  ++ "```python" ++ PyStr.nl ++ preview ++ PyStr.nl ++ "..." ++ PyStr.nl
  ++ "```".

(** Lines 80-88, on the cache. *)
Definition add_file_to_dict (paths : list (string * string))
  (file_name : string) (cache : list (string * string))
  : result (list (string * string)) :=
  match lookup file_name paths with
  | None => Raise KeyError
  | Some file_contents =>
      Ok (store file_name (file_entry file_name file_contents) cache)
  end.

(** Lines 74-76: the loop; the cache filled so far is kept when a file is
    unknown. *)
Fixpoint fill_cache (paths : list (string * string)) (files : list string)
  (cache : list (string * string))
  : option exn * list (string * string) :=
  match files with
  | [] => (None, cache)
  | file_name :: rest =>
      match lookup file_name cache with
      | Some _ => fill_cache paths rest cache
      | None =>
          match add_file_to_dict paths file_name cache with
          | Raise e => (Some e, cache)
          | Ok cache' => fill_cache paths rest cache'
          end
      end
  end.

(** Line 77, the comprehension [[file_to_str[fi] for fi in selected_files]]. *)
Definition cached_entries (files : list string) (cache : list (string * string))
  : result (list string) :=
  map_result
    (fun fi => match lookup fi cache with
               | Some v => Ok v
               | None => Raise KeyError
               end) files.

(** Lines 71-78. *)
Definition build_string (a : app) : result string * app :=
  let (err, cache) := fill_cache (path_to_contents a) (selected_files a)
                        (file_to_str a) in
  let a' := mkApp (config a) (saved a) (global_installation_id a)
              (opened_tabs a) (path_to_contents a) (selected_files a) cache in
  match err with
  | Some e => (Raise e, a')
  | None =>
      match cached_entries (selected_files a) cache with
      | Raise e => (Raise e, a')
      | Ok entries =>
          (Ok ("### Relevant snippets:" ++ PyStr.nl
               ++ PyStr.join (PyStr.nl ++ PyStr.nl) entries), a')
      end
  end.

(** Lines 90-94. *)
Definition file_names_change (file_names : list string) (a : app)
  : result (list string * string) * app :=
  let a1 := mkApp (config a) (saved a) (global_installation_id a)
              (opened_tabs a) (path_to_contents a) file_names (file_to_str a) in
  match build_string a1 with
  | (Ok text, a2) => (Ok (file_names, text), a2)
  | (Raise e, a2) => (Raise e, a2)
  end.

End Selectors.

(** ** Observations on a trace *)

Definition is_search (e : event) : bool :=
  match e with
  | Search _ _ => true
  | _ => false
  end.

Definition is_create_pr (e : event) : bool :=
  match e with
  | CreatePR _ _ _ => true
  | _ => false
  end.

Definition is_stream_chat (e : event) : bool :=
  match e with
  | StreamChat _ _ => true
  | _ => false
  end.

Definition is_yield (e : event) : bool :=
  match e with
  | Yield _ _ => true
  | _ => false
  end.

(** The events that follow the first create-PR call of a trace. *)
Fixpoint following_create_pr (t : list event) : list event :=
  match t with
  | [] => []
  | e :: t' => if is_create_pr e then t' else following_create_pr t'
  end.

(** What the UI shows in the assistant slot of the last row at a yield. *)
Definition rendered (e : event) : option string :=
  match e with
  | Yield h _ =>
      match last_turn h with
      | Some (_, a) => a
      | None => None
      end
  | _ => None
  end.

(** A run with the events [t] before it. *)
Definition after {A : Type} (t : list event)
  (r : result A * state * list event) : result A * state * list event :=
  (outcome r, final r, (t ++ events r)%list).

(** [m] relates every state it starts from to the state it ends in by [R],
    whether it returns or raises, and shows only events of [P]. *)
Definition preserves (R : state -> state -> Prop) (P : event -> Prop)
  {A : Type} (m : M A) : Prop :=
  forall s, R s (final (m s)) /\ Forall P (events (m s)).

(** The relations used with [preserves]. *)
Definition any_state (_ _ : state) : Prop := True.
Definition same_proposal (s s' : state) : Prop :=
  proposed_pr s' = proposed_pr s.

(** ** The stream as a whole

    What the loop of lines 149-159 has in [function_name] and
    [raw_arguments] after the fragments [l]. *)
Definition carries_arguments (c : chunk) : bool :=
  match chunk_function_call c with
  | Some call =>
      match fc_arguments call with
      | Some _ => true
      | None => false
      end
  | None => true
  end.

Fixpoint stream_name (function_name : option string) (l : list chunk)
  : option string :=
  match l with
  | [] => function_name
  | c :: l' =>
      stream_name
        (match chunk_function_call c with
         | Some call => or_name function_name (fc_name call)
         | None => function_name
         end) l'
  end.

Fixpoint stream_arguments (raw_arguments : string) (l : list chunk) : string :=
  match l with
  | [] => raw_arguments
  | c :: l' =>
      stream_arguments
        (match chunk_function_call c with
         | Some call =>
             match fc_arguments call with
             | Some arguments => raw_arguments ++ arguments
             | None => raw_arguments
             end
         | None => raw_arguments
         end) l'
  end.

(** A fragment that carries content only. *)
Definition content_chunk (token : string) : chunk :=
  mkChunk (Some token) None.

(** The accumulated text after each of [tokens], from [acc]. *)
Fixpoint running (acc : string) (tokens : list string) : list string :=
  match tokens with
  | [] => []
  | token :: rest => (acc ++ token) :: running (acc ++ token) rest
  end.

(** Each text of the list starts with the one before it. *)
Fixpoint prefix_growing (texts : list string) : Prop :=
  match texts with
  | x :: ((y :: _) as rest) => String.prefix x y = true /\ prefix_growing rest
  | _ => True
  end.

(** ** The proposal *)

(** A pending proposal exists: [proposed_pr] is true. *)
Definition pending (p : option dict) : bool :=
  match p with
  | Some d => Py.dict_truthy d
  | None => false
  end.

(** The message, trimmed and lower-cased, is exactly ok or okay. *)
Definition confirming (unicode_lower : string -> string)
  (user_message : string) : Prop :=
  PyStr.lower unicode_lower (PyStr.strip user_message) = "ok"
  \/ PyStr.lower unicode_lower (PyStr.strip user_message) = "okay".

(** The search of line 112, when the block calls for it, returns. *)
Definition search_answers (api_client : APIClient) (snippets_text : string)
  (query : option string) : Prop :=
  search_needed snippets_text = true ->
  exists snippets, search api_client query 3 = Ok snippets.

(** The turn does not take the branch of line 124. *)
Definition unconfirmed (unicode_lower : string -> string) (p : option dict)
  (user_message : string) : Prop :=
  pending p = false \/ ~ confirming unicode_lower user_message.

(** The client answers every chat request with the stream [st]. *)
Definition streams (api_client : APIClient) (st : stream) : Prop :=
  forall messages snippets, stream_chat api_client messages snippets = st.

(** An event of the search phase (lines 106-121). *)
Definition search_phase (e : event) : bool := is_yield e || is_search e.

(** The subscripts of lines 128-132 all succeed on [d]. *)
Definition well_formed (d : dict) : bool :=
  match file_change_requests d,
        Py.dict_get "title" d, Py.dict_get "summary" d, Py.dict_get "branch" d
  with
  | Ok _, Some _, Some _, Some _ => true
  | _, _, _, _ => false
  end.

(** The stored proposal, if there is one, can be turned into a create-PR
    call. *)
Definition proposal_ok (s : state) : Prop :=
  forall d, proposed_pr s = Some d -> well_formed d = true.
Definition keeps_proposal_ok (s s' : state) : Prop :=
  proposal_ok s -> proposal_ok s'.



(** The branch name in the words of the specification: lower-case the title,
    put an underscore for every space and every hyphen, keep at most 50
    characters. *)
Definition underscore (c : ascii) : ascii :=
  if Ascii.eqb c " "%char || Ascii.eqb c "-"%char then "_"%char else c.

Definition branch_by_spec (unicode_lower : string -> string)
  (title : string) : string :=
  PyStr.take 50
    (PyStr.map_chars underscore (PyStr.lower unicode_lower title)).

(** ** Stand-ins for the remote service, for the worked examples *)

Module Demo.

Definition pull_url : string := "https://github.com/o/r/pull/1".

Definition snippet : Snippet := mkSnippet "a.py:0:3" "x = 1".

(** A stream with no fragment. *)
Definition quiet : stream := mkStream [] None.

(** A client that finds one snippet, streams [st] and creates the pull
    request [pull_url]. *)
Definition client (st : stream) : APIClient :=
  mkClient (fun _ _ => Ok [snippet])
           (fun _ _ => st)
           (fun _ _ _ => Ok (JObj [("html_url", JStr pull_url)]))
           (fun _ => Ok 7%Z).

(** A parser that knows the texts of [table] only. *)
Definition loads (table : list (string * json)) (text : string) : result json :=
  match Py.dict_get text table with
  | Some v => Ok v
  | None => Raise JSONDecodeError
  end.

Definition repr (_ : json) : string := "<value>".

Definition preview (s : Snippet) (_ : Z) : string := snippet_content s.

(** The Kelvin sign U+212A (E2 84 AA), whose lower case is the letter k. *)
Definition kelvin : string :=
  String "226"%char (String "132"%char (String "170"%char EmptyString)).

(** The ideographic space U+3000 (E3 80 80). *)
Definition wide_space : string :=
  String "227"%char (String "128"%char (String "128"%char EmptyString)).

(** A lower-casing table that knows one character beyond ASCII, the Kelvin
    sign. *)
Fixpoint lower (s : string) : string :=
  match s with
  | EmptyString => EmptyString
  | String c1 s1 =>
      match s1 with
      | String c2 (String c3 s3) =>
          if String.eqb (String c1 (String c2 (String c3 EmptyString))) kelvin
          then String "k"%char (lower s3)
          else String (PyStr.lower_char c1) (lower s1)
      | _ => String (PyStr.lower_char c1) (lower s1)
      end
  end.

(** The function-call stream of the specification's example: the name and
    the arguments arrive in two fragments, the second without a name. *)
Definition q : string := String PyStr.quote_char EmptyString.

Definition first_part : string := "{" ++ q ++ "ti".

Definition second_part : string :=
  "tle" ++ q ++ ":" ++ q ++ "X" ++ q ++ "," ++ q ++ "summary" ++ q ++ ":"
  ++ q ++ "S" ++ q ++ "," ++ q ++ "plan" ++ q ++ ":[]}".

Definition call_stream : stream :=
  mkStream
    [mkChunk None (Some (mkCall (Some "create_pr") (Some first_part)));
     mkChunk None (Some (mkCall None (Some second_part)))]
    None.

(** What [json.loads] makes of the two parts together. *)
Definition parsed : json :=
  JObj [("title", JStr "X"); ("summary", JStr "S"); ("plan", JArr [])].

(** A parse of the same text that lost its plan. *)
Definition parsed_without_plan : json :=
  JObj [("title", JStr "X"); ("summary", JStr "S")].

(** A stream whose function call has a name and no arguments. *)
Definition bare_call_stream : stream :=
  mkStream [mkChunk None (Some (mkCall (Some "create_pr") None))] None.

(** The content stream of the specification's example. *)
Definition hello_stream : stream :=
  mkStream [content_chunk "Hel"; content_chunk "lo"] None.

(** The application as it starts on the repository o/r, which holds one
    file. *)
Definition start : Selectors.app :=
  Selectors.mkApp (Selectors.mkConfig (Some "o/r") (Some 7%Z))
    (Selectors.mkConfig (Some "o/r") (Some 7%Z)) None []
    [("a.py", "x = 1")] [] [].

(** A proposal as line 174 stores it. *)
Definition proposal : dict :=
  [("title", JStr "Add tests");
   ("summary", JStr "Unit tests for the client");
   ("plan", JArr [JObj [("file_path", JStr "tests/test_client.py");
                        ("instructions", JStr "cover search")]]);
   ("branch", JStr "add_tests")].

End Demo.

(** ** Further observations, for the properties beyond the turn's policy *)

(** A computation that raises leaves [proposed_pr] as it found it. *)
Definition raise_keeps_proposal {A : Type} (m : M A) : Prop :=
  forall s e,
    outcome (m s) = Raise e -> proposed_pr (final (m s)) = proposed_pr s.

(** The rows are the same, but for the assistant slot of the last one. *)
Definition last_slot_only (s s' : state) : Prop :=
  forall h u a,
    chat_history s = (h ++ [(u, a)])%list ->
    exists a', chat_history s' = (h ++ [(u, a')])%list.

(** The computation never shows both a create-PR call and a chat request. *)
Definition one_call_kind {A : Type} (m : M A) : Prop :=
  forall s,
    Forall (fun e => is_create_pr e = false) (events (m s))
    \/ Forall (fun e => is_stream_chat e = false) (events (m s)).

(** Neither a create-PR call nor a chat request. *)
Definition no_remote_reply (e : event) : Prop :=
  is_create_pr e = false /\ is_stream_chat e = false.

(** A function-call name that line 156 keeps: a string that is not empty. *)
Definition name_given (name : option string) : bool :=
  match name with
  | Some n => PyStr.truthy n
  | None => false
  end.

(** The first name that a function-call fragment of the stream gives. *)
Fixpoint first_name (l : list chunk) : option string :=
  match l with
  | [] => None
  | c :: l' =>
      match chunk_function_call c with
      | Some call =>
          if name_given (fc_name call) then fc_name call else first_name l'
      | None => first_name l'
      end
  end.

(** The argument chunks of the stream, one after the other. *)
Fixpoint all_arguments (l : list chunk) : string :=
  match l with
  | [] => EmptyString
  | c :: l' =>
      match chunk_function_call c with
      | Some call =>
          match fc_arguments call with
          | Some arguments => arguments ++ all_arguments l'
          | None => all_arguments l'
          end
      | None => all_arguments l'
      end
  end.

(** The fragment has no function call, or one without a name. *)
Definition nameless (c : chunk) : bool :=
  match chunk_function_call c with
  | Some call => negb (name_given (fc_name call))
  | None => true
  end.

(** Every backtick of [s] stands right after a backslash; [escaped] tells
    whether the character before [s] is one. *)
Fixpoint well_escaped (escaped : bool) (s : string) : bool :=
  match s with
  | EmptyString => true
  | String c s' =>
      if Ascii.eqb c PyStr.backtick_char then escaped && well_escaped false s'
      else well_escaped (Ascii.eqb c PyStr.backslash_char) s'
  end.

(** The text ends with a backtick, as a fenced block does. *)
Definition ends_with_backtick (s : string) : Prop :=
  exists pre, s = pre ++ PyStr.backtick.

(** Lines 84-87: the preview inside a file's entry. *)
Definition file_preview (file_contents : string) : string :=
  PyStr.replace PyStr.backtick_char PyStr.escaped_backtick
    (PyStr.join PyStr.nl (firstn 3 (PyStr.split PyStr.nl_char file_contents))).

(** The file can be shown: its entry is cached, or its contents are known. *)
Definition showable (a : Selectors.app) (file_name : string) : Prop :=
  Selectors.lookup file_name (Selectors.file_to_str a) <> None
  \/ Selectors.lookup file_name (Selectors.path_to_contents a) <> None.

(** Every cached entry is the entry of the contents read at start-up. *)
Definition cache_sound (a : Selectors.app) : Prop :=
  forall file_name entry,
    Selectors.lookup file_name (Selectors.file_to_str a) = Some entry ->
    exists file_contents,
      Selectors.lookup file_name (Selectors.path_to_contents a)
      = Some file_contents
      /\ entry = Selectors.file_entry file_name file_contents.

(** The module-level [proposed_pr] over the turns of a session: each turn
    runs on the block, the repository name and the history that the UI hands
    to it. *)
Section Session.

Variable api_client : APIClient.
Variable json_loads : string -> result json.
Variable repr : json -> string.
Variable get_preview : Snippet -> Z -> string.
Variable unicode_lower : string -> string.

Fixpoint proposal_after (turns : list (string * string * history))
  (p : option dict) : option dict :=
  match turns with
  | [] => p
  | (snippets_text, repo_name, h) :: rest =>
      proposal_after rest
        (proposed_pr
           (final (handle_message_stream api_client json_loads repr
                     get_preview unicode_lower snippets_text repo_name
                     (mkState h p))))
  end.

End Session.

(** ** Further stand-ins *)

Module Outage.

(** A client whose search and pull-request service are down. *)
Definition client (st : stream) : APIClient :=
  mkClient (fun _ _ => Raise (RemoteError "search is down"))
           (fun _ _ => st)
           (fun _ _ _ => Raise (RemoteError "create_pr is down"))
           (fun _ => Raise (RemoteError "no installation")).

(** A stream that asks for a function the UI does not know. *)
Definition other_call_stream : stream :=
  mkStream [mkChunk None (Some (mkCall (Some "delete_repo") (Some "{}")))]
           None.


(** A client whose pull-request service answers without a URL. *)
Definition mute_client (st : stream) : APIClient :=
  mkClient (fun _ _ => Ok [])
           (fun _ _ => st)
           (fun _ _ _ => Ok (JObj []))
           (fun _ => Ok 0%Z).

(** A block that shows a snippet already. *)
Definition rendered_block : string :=
  "### Relevant snippets:" ++ PyStr.nl ++ "a.py".

End Outage.

(** ** Reasoning about computations *)

Unset Implicit Arguments.

(** *** Strings *)

Lemma append_empty_r (s : string) : s ++ EmptyString = s.
Proof. induction s as [|c s IH]; [reflexivity|]. simpl. now rewrite IH. Qed.

Lemma append_assoc (s t u : string) : (s ++ t) ++ u = s ++ t ++ u.
Proof. induction s as [|c s IH]; [reflexivity|]. simpl. now rewrite IH. Qed.

Lemma prefix_append (s t : string) : String.prefix s (s ++ t) = true.
Proof.
  induction s as [|c s IH]; [destruct t; reflexivity|].
  simpl. destruct (ascii_dec c c) as [_|N]; [exact IH | contradiction].
Qed.

Lemma replace_as_map (a b : ascii) (s : string) :
  PyStr.replace a (String b EmptyString) s
  = PyStr.map_chars (fun c => if Ascii.eqb c a then b else c) s.
Proof.
  induction s as [|c s IH]; [reflexivity|].
  cbn [PyStr.replace PyStr.map_chars]. rewrite IH.
  destruct (Ascii.eqb c a); reflexivity.
Qed.

Lemma map_chars_compose (f g : ascii -> ascii) (s : string) :
  PyStr.map_chars f (PyStr.map_chars g s)
  = PyStr.map_chars (fun c => f (g c)) s.
Proof.
  induction s as [|c s IH]; [reflexivity|].
  cbn [PyStr.map_chars]. now rewrite IH.
Qed.

Lemma map_chars_ext (f g : ascii -> ascii) (s : string) :
  (forall c, f c = g c) -> PyStr.map_chars f s = PyStr.map_chars g s.
Proof.
  intros H. induction s as [|c s IH]; [reflexivity|].
  cbn [PyStr.map_chars]. now rewrite H, IH.
Qed.


Lemma take_len_min (n : nat) (s : string) :
  PyStr.len (PyStr.take n s) = Nat.min n (PyStr.len s).
Proof.
  revert n. induction s as [|c s IH]; intros n; [simpl; lia|].
  cbn [PyStr.take]. destruct (PyStr.is_continuation c) eqn:C.
  - cbn [PyStr.len]. rewrite C. specialize (IH n). lia.
  - destruct n as [|n]; [simpl; lia|].
    cbn [PyStr.len]. rewrite C. specialize (IH n). lia.
Qed.


Lemma underscore_continuation (c : ascii) :
  PyStr.is_continuation (underscore c) = PyStr.is_continuation c.
Proof.
  unfold underscore.
  destruct (Ascii.eqb_spec c " ") as [->|_]; [reflexivity|].
  destruct (Ascii.eqb_spec c "-") as [->|_]; reflexivity.
Qed.

(** Spaces, hyphens and underscores are characters of one byte: putting one
    for the other keeps the number of characters. *)
Lemma map_underscore_len (s : string) :
  PyStr.len (PyStr.map_chars underscore s) = PyStr.len s.
Proof.
  induction s as [|c s IH]; [reflexivity|].
  cbn [PyStr.map_chars PyStr.len]. now rewrite underscore_continuation, IH.
Qed.

(** The branch of line 167 is the branch of the specification. *)
Lemma derive_branch_by_spec (unicode_lower : string -> string)
  (title : string) :
  derive_branch unicode_lower title = branch_by_spec unicode_lower title.
Proof.
  unfold derive_branch, branch_by_spec. f_equal.
  change "_" with (String "_"%char EmptyString).
  rewrite !replace_as_map, map_chars_compose.
  apply map_chars_ext. intros c. unfold underscore.
  destruct (Ascii.eqb c " ") eqn:S.
  - reflexivity.
  - cbn [orb]. reflexivity.
Qed.

(** *** Dicts *)

Lemma dict_get_set_same (k : string) v (d : dict) :
  Py.dict_get k (Py.dict_set k v d) = Some v.
Proof.
  induction d as [|[k' v'] d IH]; cbn [Py.dict_set Py.dict_get].
  - now rewrite String.eqb_refl.
  - destruct (String.eqb k k') eqn:E; cbn [Py.dict_get]; rewrite E; auto.
Qed.


(** *** The monad *)

Lemma bind_Ok {A B : Type} (m : M A) (f : A -> M B) s a s1 t1 :
  m s = (Ok a, s1, t1) -> bind m f s = after t1 (f a s1).
Proof.
  intros H. unfold bind, after, outcome, final, events. rewrite H.
  destruct (f a s1) as [[r s2] t2]. reflexivity.
Qed.

Lemma bind_Raise {A B : Type} (m : M A) (f : A -> M B) s e s1 t1 :
  m s = (Raise e, s1, t1) -> bind m f s = (Raise e, s1, t1).
Proof. intros H. unfold bind. rewrite H. reflexivity. Qed.

Arguments bind_Ok {A B} m f s {a s1 t1} _.
Arguments bind_Raise {A B} m f s {e s1 t1} _.

Lemma last_turn_snoc (h : history) (t : chat_turn) :
  last_turn (h ++ [t])%list = Some t.
Proof.
  induction h as [|x h IH]; [reflexivity|].
  simpl. rewrite IH. destruct (h ++ [t])%list eqn:E; [|reflexivity].
  destruct h; discriminate.
Qed.

Lemma set_last_snoc (h : history) u a v :
  set_last v (h ++ [(u, a)])%list = Some (h ++ [(u, v)])%list.
Proof.
  induction h as [|x h IH]; [reflexivity|].
  simpl. rewrite IH. destruct (h ++ [(u, a)])%list eqn:E.
  - destruct h; discriminate.
  - destruct x. reflexivity.
Qed.

Lemma set_last_Some (v : option string) (h h' : history) :
  set_last v h = Some h' ->
  exists pre u a, h = (pre ++ [(u, a)])%list /\ h' = (pre ++ [(u, v)])%list.
Proof.
  revert h'. induction h as [|[u a] h IH]; intros h' H; [discriminate|].
  simpl in H. destruct h as [|y h0].
  - injection H as <-. exists [], u, a. split; reflexivity.
  - destruct (set_last v (y :: h0)) as [h1|] eqn:E; [|discriminate].
    injection H as <-.
    destruct (IH h1 eq_refl) as (pre & u' & a' & E1 & E2).
    exists ((u, a) :: pre), u', a'. rewrite E1, E2. split; reflexivity.
Qed.

Lemma set_assistant_snoc v h u a p :
  set_assistant v (mkState (h ++ [(u, a)])%list p)
  = (Ok tt, mkState (h ++ [(u, Some v)])%list p, []).
Proof.
  unfold set_assistant, bind, get. simpl.
  rewrite set_last_snoc. reflexivity.
Qed.

Lemma user_message_snoc h u a p :
  user_message (mkState (h ++ [(u, a)])%list p)
  = (Ok u, mkState (h ++ [(u, a)])%list p, []).
Proof.
  unfold user_message, bind, get. simpl.
  rewrite last_turn_snoc. reflexivity.
Qed.

Lemma append_assistant_snoc token h u a p :
  append_assistant token (mkState (h ++ [(u, Some a)])%list p)
  = (Ok tt, mkState (h ++ [(u, Some (a ++ token)%string)])%list p, []).
Proof.
  unfold append_assistant, bind, get. simpl.
  rewrite last_turn_snoc. rewrite set_assistant_snoc. reflexivity.
Qed.

(** *** Frame reasoning: what a computation leaves alone *)

Section Preserves.

Variable R : state -> state -> Prop.
Variable P : event -> Prop.
Hypothesis R_refl : forall s, R s s.
Hypothesis R_trans : forall a b c, R a b -> R b c -> R a c.

Lemma preserves_ret {A : Type} (a : A) : preserves R P (ret a).
Proof. intros s. split; [apply R_refl | constructor]. Qed.

Lemma preserves_raise {A : Type} (e : exn) : preserves R P (@raise A e).
Proof. intros s. split; [apply R_refl | constructor]. Qed.

Lemma preserves_lift {A : Type} (r : result A) : preserves R P (lift r).
Proof. intros s. split; [apply R_refl | constructor]. Qed.

Lemma preserves_get : preserves R P get.
Proof. intros s. split; [apply R_refl | constructor]. Qed.

Lemma preserves_emit (e : event) : P e -> preserves R P (emit e).
Proof. intros H s. split; [apply R_refl | repeat constructor; exact H]. Qed.

Lemma preserves_bind {A B : Type} (m : M A) (f : A -> M B) :
  preserves R P m -> (forall a, preserves R P (f a)) ->
  preserves R P (bind m f).
Proof.
  intros Hm Hf s. destruct (Hm s) as [HR HP].
  unfold bind. destruct (m s) as [[[a|e] s1] t1] eqn:E; simpl in *.
  - destruct (Hf a s1) as [HR' HP'].
    destruct (f a s1) as [[r s2] t2]; simpl in *.
    split; [eapply R_trans; eassumption | apply Forall_app; split; assumption].
  - split; assumption.
Qed.

Hypothesis R_assistant : forall s h' v,
  set_last v (chat_history s) = Some h' -> R s (mkState h' (proposed_pr s)).
Hypothesis P_yield : forall h t, P (Yield h t).

Lemma preserves_yield (snippets_text : string) :
  preserves R P (yield snippets_text).
Proof.
  apply preserves_bind; [apply preserves_get | intros a].
  apply preserves_emit, P_yield.
Qed.

Lemma preserves_set_assistant (v : string) : preserves R P (set_assistant v).
Proof.
  intros s. unfold set_assistant, bind, get, put_history, raise.
  destruct (set_last (Some v) (chat_history s)) as [h'|] eqn:E; simpl.
  - split; [eapply R_assistant; eassumption | constructor].
  - split; [apply R_refl | constructor].
Qed.

Lemma preserves_user_message : preserves R P user_message.
Proof.
  apply preserves_bind; [apply preserves_get | intros s].
  destruct (last_turn (chat_history s)) as [[u a]|];
    [apply preserves_ret | apply preserves_raise].
Qed.

Lemma preserves_append_assistant (token : string) :
  preserves R P (append_assistant token).
Proof.
  apply preserves_bind; [apply preserves_get | intros s].
  destruct (last_turn (chat_history s)) as [[u [a|]]|];
    [apply preserves_set_assistant | apply preserves_raise
    | apply preserves_raise].
Qed.

End Preserves.

(** Steps through a computation built from the operations above. *)
Ltac frame_step :=
  match goal with
  | |- preserves _ _ (bind _ _) =>
      apply preserves_bind; [ solve [auto] .. | | intros ]
  | |- preserves _ _ (ret _) => apply preserves_ret; solve [auto]
  | |- preserves _ _ (raise _) => apply preserves_raise; solve [auto]
  | |- preserves _ _ (lift _) => apply preserves_lift; solve [auto]
  | |- preserves _ _ get => apply preserves_get; solve [auto]
  | |- preserves _ _ (emit _) => apply preserves_emit; solve [auto]
  | |- preserves _ _ (yield _) => apply preserves_yield; solve [auto]
  | |- preserves _ _ (set_assistant _) =>
      apply preserves_set_assistant; solve [auto]
  | |- preserves _ _ user_message => apply preserves_user_message; solve [auto]
  | |- preserves _ _ (append_assistant _) =>
      apply preserves_append_assistant; solve [auto]
  | |- preserves _ _ (if ?b then _ else _) => destruct b
  | |- preserves _ _ (match ?x with _ => _ end) => destruct x
  | H : _ |- _ => solve [apply H; auto]
  end.
Ltac frame := repeat frame_step.

Section PreservesHandler.

Variable R : state -> state -> Prop.
Variable P : event -> Prop.
Hypothesis R_refl : forall s, R s s.
Hypothesis R_trans : forall a b c, R a b -> R b c -> R a c.
Hypothesis R_assistant : forall s h' v,
  set_last v (chat_history s) = Some h' -> R s (mkState h' (proposed_pr s)).
Hypothesis P_yield : forall h t, P (Yield h t).

Variable api_client : APIClient.
Variable json_loads : string -> result json.
Variable repr : json -> string.
Variable get_preview : Snippet -> Z -> string.
Variable unicode_lower : string -> string.

Lemma preserves_search_snippets (snippets_text : string) :
  (forall q k, P (Search q k)) ->
  preserves R P (search_snippets api_client get_preview snippets_text).
Proof. intros HS. unfold search_snippets. frame. Qed.

Lemma preserves_confirmation : preserves R P (confirmation unicode_lower).
Proof. unfold confirmation. frame. Qed.

Lemma preserves_confirm_pr (d : dict) (snippets_text : string) :
  (forall a b c, P (CreatePR a b c)) ->
  preserves R P (confirm_pr api_client repr d snippets_text).
Proof. intros HC. unfold confirm_pr. frame. Qed.

Lemma preserves_consume_chunk (snippets_text : string) (c : chunk)
  function_name raw_arguments :
  preserves R P (consume_chunk snippets_text c function_name raw_arguments).
Proof. unfold consume_chunk. frame. Qed.

Lemma preserves_consume_chunks (snippets_text : string) (l : list chunk) :
  forall function_name raw_arguments,
    preserves R P (consume_chunks snippets_text l function_name raw_arguments).
Proof.
  induction l as [|c l IH]; intros fn raw; cbn [consume_chunks]; frame.
  apply preserves_consume_chunk.
Qed.

Lemma preserves_consume_stream (snippets_text : string) (st : stream) :
  preserves R P (consume_stream snippets_text st).
Proof. unfold consume_stream. frame. apply preserves_consume_chunks. Qed.

Lemma preserves_render_proposal (arguments : json) :
  preserves R P (render_proposal repr arguments).
Proof. unfold render_proposal. frame. Qed.

Lemma preserves_default_branch (arguments : json) :
  preserves R P (default_branch unicode_lower arguments).
Proof. unfold default_branch. frame. Qed.

Lemma preserves_assert_in (k : string) (arguments : json) :
  preserves R P (assert_in k arguments).
Proof. unfold assert_in. frame. Qed.

Hypothesis P_stream_chat : forall h sn, P (StreamChat h sn).
Hypothesis R_append : forall s t,
  R s (mkState (chat_history s ++ [t])%list (proposed_pr s)).

Lemma preserves_append_turn (t : chat_turn) : preserves R P (append_turn t).
Proof. intros s. split; [apply R_append | constructor]. Qed.

Lemma preserves_propose_pr (arguments : json) (snippets_text : string) :
  (forall s d, R s (mkState (chat_history s) (Some d))) ->
  preserves R P (propose_pr repr unicode_lower arguments snippets_text).
Proof.
  intros R_store.
  pose proof preserves_assert_in. pose proof preserves_default_branch.
  pose proof preserves_render_proposal.
  unfold propose_pr. frame.
  unfold store_proposal. frame.
  intros s. split; [apply R_store | constructor].
Qed.

Hypothesis propose_ok : forall arguments snippets_text,
  preserves R P (propose_pr repr unicode_lower arguments snippets_text).

Lemma preserves_finish_call function_name raw_arguments snippets_text :
  preserves R P
    (finish_call json_loads repr unicode_lower function_name raw_arguments
      snippets_text).
Proof. unfold finish_call. frame. Qed.

Lemma preserves_generate_response snippets snippets_text :
  preserves R P
    (generate_response api_client json_loads repr unicode_lower snippets
      snippets_text).
Proof.
  pose proof preserves_consume_stream. pose proof preserves_finish_call.
  pose proof preserves_append_turn.
  unfold generate_response. frame.
Qed.

Lemma preserves_reply snippets snippets_text :
  (forall a b c, P (CreatePR a b c)) ->
  preserves R P (reply api_client json_loads repr unicode_lower snippets
    snippets_text).
Proof.
  intros HC. pose proof preserves_confirmation.
  pose proof preserves_confirm_pr. pose proof preserves_generate_response.
  unfold reply. frame.
Qed.

Lemma preserves_handle_message_stream snippets_text repo_name :
  (forall q k, P (Search q k)) ->
  (forall a b c, P (CreatePR a b c)) ->
  preserves R P
    (handle_message_stream api_client json_loads repr get_preview unicode_lower
       snippets_text repo_name).
Proof.
  intros HS HC. pose proof preserves_search_snippets.
  pose proof preserves_reply.
  unfold handle_message_stream. frame.
Qed.

End PreservesHandler.

(** *** Reading a run *)

Lemma outcome_after {A : Type} t (r : result A * state * list event) :
  outcome (after t r) = outcome r.
Proof. reflexivity. Qed.

Lemma final_after {A : Type} t (r : result A * state * list event) :
  final (after t r) = final r.
Proof. reflexivity. Qed.

Lemma events_after {A : Type} t (r : result A * state * list event) :
  events (after t r) = (t ++ events r)%list.
Proof. reflexivity. Qed.

Lemma after_after {A : Type} t1 t2 (r : result A * state * list event) :
  after t1 (after t2 r) = after (t1 ++ t2) r.
Proof. unfold after. cbn. rewrite app_assoc. reflexivity. Qed.

Lemma after_events {A : Type} t1 (x : result A) s t2 :
  after t1 (x, s, t2) = after (t1 ++ t2) (x, s, []).
Proof. unfold after. cbn. rewrite app_nil_r. reflexivity. Qed.

Lemma after_eta {A : Type} (r : result A * state * list event) :
  after [] r = r.
Proof. destruct r as [[? ?] ?]. reflexivity. Qed.

Lemma filter_none {A : Type} (f : A -> bool) (l : list A) :
  Forall (fun x => f x = false) l -> filter f l = [].
Proof.
  induction 1 as [|x l Hx _ IH]; [reflexivity|].
  simpl. rewrite Hx. exact IH.
Qed.

Lemma existsb_none {A : Type} (f : A -> bool) (l : list A) :
  Forall (fun x => f x = false) l -> existsb f l = false.
Proof.
  induction 1 as [|x l Hx _ IH]; [reflexivity|].
  simpl. rewrite Hx. exact IH.
Qed.

(** *** Running the phases of a turn *)

Section Runs.

Variable api_client : APIClient.
Variable json_loads : string -> result json.
Variable repr : json -> string.
Variable get_preview : Snippet -> Z -> string.
Variable unicode_lower : string -> string.

Lemma yield_run (snippets_text : string) (s : state) :
  yield snippets_text s = (Ok tt, s, [Yield (chat_history s) snippets_text]).
Proof. reflexivity. Qed.

Lemma emit_run (e : event) (s : state) : emit e s = (Ok tt, s, [e]).
Proof. reflexivity. Qed.

Lemma lift_Ok {A : Type} (a : A) (s : state) : lift (Ok a) s = (Ok a, s, []).
Proof. reflexivity. Qed.

Lemma get_run (s : state) : get s = (Ok s, s, []).
Proof. reflexivity. Qed.

Lemma search_snippets_run (snippets_text : string) h u a p :
  search_snippets api_client get_preview snippets_text
    (mkState (h ++ [(u, a)])%list p)
  = if search_needed snippets_text then
      let searching :=
        (h ++ [(u, Some "Searching for relevant snippets...")])%list in
      match search api_client u 3 with
      | Ok snippets =>
          let found := (h ++ [(u, Some "Found relevant snippets.")])%list in
          (Ok (snippets, render_snippets get_preview snippets),
           mkState found p,
           [Yield searching snippets_text; Search u 3;
            Yield found (render_snippets get_preview snippets)])
      | Raise e =>
          (Raise e, mkState searching p,
           [Yield searching snippets_text; Search u 3])
      end
    else (Ok ([], snippets_text), mkState (h ++ [(u, a)])%list p, []).
Proof.
  unfold search_snippets.
  destruct (search_needed snippets_text); [|reflexivity].
  rewrite (bind_Ok _ _ _ (set_assistant_snoc _ h u a p)).
  rewrite (bind_Ok _ _ _ (yield_run _ _)).
  rewrite (bind_Ok _ _ _ (user_message_snoc h u _ p)).
  rewrite (bind_Ok _ _ _ (emit_run _ _)).
  destruct (search api_client u 3) as [snippets|e]; [|reflexivity].
  rewrite (bind_Ok _ _ _ (lift_Ok _ _)).
  rewrite (bind_Ok _ _ _ (set_assistant_snoc _ h u _ p)).
  rewrite (bind_Ok _ _ _ (yield_run _ _)).
  reflexivity.
Qed.

Lemma confirmation_run h (m : string) a p :
  confirmation unicode_lower (mkState (h ++ [(Some m, a)])%list p)
  = (Ok (if pending p && is_ok (PyStr.lower unicode_lower (PyStr.strip m))
         then p else None),
     mkState (h ++ [(Some m, a)])%list p, []).
Proof.
  unfold confirmation.
  rewrite (bind_Ok _ _ _ (get_run _)). unfold pending. cbn [proposed_pr].
  destruct p as [d|]; [|reflexivity].
  destruct (Py.dict_truthy d); [|reflexivity].
  rewrite (bind_Ok _ _ _ (user_message_snoc h _ _ _)).
  cbn [andb]. destruct (is_ok _); reflexivity.
Qed.

Lemma handle_message_stream_run snippets_text repo_name h u a p :
  handle_message_stream api_client json_loads repr get_preview unicode_lower
    snippets_text repo_name (mkState (h ++ [(u, a)])%list p)
  = after [Yield (h ++ [(u, a)])%list snippets_text]
      (if search_needed snippets_text then
         let searching :=
           (h ++ [(u, Some "Searching for relevant snippets...")])%list in
         match search api_client u 3 with
         | Ok snippets =>
             let found := (h ++ [(u, Some "Found relevant snippets.")])%list in
             let text := render_snippets get_preview snippets in
             after [Yield searching snippets_text; Search u 3; Yield found text]
               (reply api_client json_loads repr unicode_lower snippets text
                  (mkState found p))
         | Raise e =>
             (Raise e, mkState searching p,
              [Yield searching snippets_text; Search u 3])
         end
       else reply api_client json_loads repr unicode_lower [] snippets_text
              (mkState (h ++ [(u, a)])%list p)).
Proof.
  unfold handle_message_stream.
  rewrite (bind_Ok _ _ _ (yield_run _ _)). f_equal.
  pose proof (search_snippets_run snippets_text h u a p) as E.
  destruct (search_needed snippets_text).
  - destruct (search api_client u 3) as [snippets|e].
    + rewrite (bind_Ok _ _ _ E). reflexivity.
    + rewrite (bind_Raise _ _ _ E). reflexivity.
  - rewrite (bind_Ok _ _ _ E).
    destruct (reply _ _ _ _ _ _) as [[r s'] t]. reflexivity.
Qed.

(** One fragment, on a history whose last assistant slot holds text. *)
Lemma consume_chunk_step snippets_text (c : chunk) fn raw h u acc p :
  exists acc' t,
    Forall (fun e => is_yield e = true) t
    /\ consume_chunk snippets_text c fn raw
         (mkState (h ++ [(u, Some acc)])%list p)
       = (if carries_arguments c
          then Ok (stream_name fn [c], stream_arguments raw [c])
          else Raise TypeError,
          mkState (h ++ [(u, Some acc')])%list p, t).
Proof.
  unfold consume_chunk, carries_arguments. cbn [stream_name stream_arguments].
  assert (C : exists acc1 t1,
             Forall (fun e => is_yield e = true) t1
             /\ match content_token c with
                | Some token => append_assistant token;; yield snippets_text
                | None => ret tt
                end (mkState (h ++ [(u, Some acc)])%list p)
                = (Ok tt, mkState (h ++ [(u, Some acc1)])%list p, t1)).
  { destruct (content_token c) as [token|].
    - rewrite (bind_Ok _ _ _ (append_assistant_snoc token h u acc p)).
      rewrite yield_run. eexists _, _. split; [|reflexivity].
      repeat constructor.
    - exists acc, []. split; [constructor | reflexivity]. }
  destruct C as (acc1 & t1 & Ht1 & E). rewrite (bind_Ok _ _ _ E).
  destruct (chunk_function_call c) as [call|].
  - destruct (fc_arguments call) as [arguments|].
    + rewrite (bind_Ok _ _ _ (set_assistant_snoc _ h u _ p)).
      rewrite (bind_Ok _ _ _ (yield_run _ _)).
      eexists _, _. split; [|reflexivity].
      apply Forall_app. split; [exact Ht1 | repeat constructor].
    + exists acc1, (t1 ++ [])%list. split; [|reflexivity].
      rewrite app_nil_r. exact Ht1.
  - exists acc1, (t1 ++ [])%list. split; [|reflexivity].
    rewrite app_nil_r. exact Ht1.
Qed.

(** The whole loop: it ends with the name and the arguments of the stream
    when every function-call fragment carries arguments, and in a
    [TypeError] otherwise. *)
Lemma consume_chunks_outcome snippets_text (l : list chunk) :
  forall fn raw h u acc p,
  exists acc' t,
    Forall (fun e => is_yield e = true) t
    /\ consume_chunks snippets_text l fn raw
         (mkState (h ++ [(u, Some acc)])%list p)
       = (if forallb carries_arguments l
          then Ok (stream_name fn l, stream_arguments raw l)
          else Raise TypeError,
          mkState (h ++ [(u, Some acc')])%list p, t).
Proof.
  induction l as [|c l IH]; intros fn raw h u acc p.
  - exists acc, []. split; [constructor | reflexivity].
  - cbn [consume_chunks forallb].
    destruct (consume_chunk_step snippets_text c fn raw h u acc p)
      as (acc1 & t1 & Ht1 & E).
    destruct (carries_arguments c) eqn:C.
    + rewrite (bind_Ok _ _ _ E). cbn [andb stream_name stream_arguments].
      cbn [stream_name stream_arguments] in E.
      destruct (IH (match chunk_function_call c with
                    | Some call => or_name fn (fc_name call)
                    | None => fn
                    end)
                   (match chunk_function_call c with
                    | Some call =>
                        match fc_arguments call with
                        | Some arguments => raw ++ arguments
                        | None => raw
                        end
                    | None => raw
                    end) h u acc1 p) as (acc2 & t2 & Ht2 & E2).
      rewrite E2. exists acc2, (t1 ++ t2)%list.
      split; [apply Forall_app; split; assumption | reflexivity].
    + rewrite (bind_Raise _ _ _ E). exists acc1, t1. split; [exact Ht1|].
      reflexivity.
Qed.

Lemma generate_response_run snippets snippets_text h0 p :
  let fetching := (h0 ++ [(None, Some "Fetching endpoint...")])%list in
  let messages := (h0 ++ [(None, Some EmptyString)])%list in
  generate_response api_client json_loads repr unicode_lower snippets
    snippets_text
    (mkState h0 p)
  = after [Yield fetching snippets_text; StreamChat messages snippets]
      (bind (consume_stream snippets_text
               (stream_chat api_client messages snippets))
            (fun x => finish_call json_loads repr unicode_lower (fst x) (snd x)
              snippets_text)
            (mkState messages p)).
Proof.
  intros fetching messages. unfold generate_response.
  assert (A : append_turn (None, Some "Fetching endpoint...") (mkState h0 p)
              = (Ok tt, mkState fetching p, [])) by reflexivity.
  rewrite (bind_Ok _ _ _ A).
  rewrite (bind_Ok _ _ _ (yield_run _ _)).
  subst fetching.
  rewrite (bind_Ok _ _ _ (set_assistant_snoc _ h0 None _ p)).
  rewrite (bind_Ok _ _ _ (get_run _)).
  rewrite (bind_Ok _ _ _ (emit_run _ _)).
  cbn [chat_history]. fold messages.
  rewrite !after_after. cbn [app].
  f_equal. unfold bind.
  destruct (consume_stream _ _ _) as [[[[fn raw]|e] s1] t1]; reflexivity.
Qed.

Lemma join_empty_cons (token : string) (rest : list string) :
  PyStr.join EmptyString (token :: rest)
  = token ++ PyStr.join EmptyString rest.
Proof.
  destruct rest; cbn [PyStr.join]; [now rewrite append_empty_r | reflexivity].
Qed.

Lemma consume_content_chunk snippets_text (token : string) fn raw h u acc p :
  consume_chunk snippets_text (content_chunk token) fn raw
    (mkState (h ++ [(u, Some acc)])%list p)
  = if PyStr.truthy token then
      (Ok (fn, raw), mkState (h ++ [(u, Some (acc ++ token)%string)])%list p,
       [Yield (h ++ [(u, Some (acc ++ token)%string)])%list snippets_text])
    else (Ok (fn, raw), mkState (h ++ [(u, Some acc)])%list p, []).
Proof.
  unfold consume_chunk, content_chunk, content_token.
  cbn [chunk_content chunk_function_call].
  destruct (PyStr.truthy token).
  - assert (E : (append_assistant token;; yield snippets_text)
                  (mkState (h ++ [(u, Some acc)])%list p)
                = (Ok tt,
                   mkState (h ++ [(u, Some (acc ++ token)%string)])%list p,
                   [Yield (h ++ [(u, Some (acc ++ token)%string)])%list
                      snippets_text])).
    { rewrite (bind_Ok _ _ _ (append_assistant_snoc token h u acc p)).
      rewrite yield_run. reflexivity. }
    rewrite (bind_Ok _ _ _ E). reflexivity.
  - reflexivity.
Qed.

(** C7 (amended): on a stream of content fragments the loop returns, yields
    the accumulated text once after every fragment that is not empty (an
    empty fragment is passed over without a yield), each yielded text a
    prefix of the next, and leaves the concatenation of all fragments in
    the assistant slot. *)
Theorem content_fragments_accumulate snippets_text (tokens : list string) :
  forall fn raw h u acc p,
    let r := consume_chunks snippets_text (map content_chunk tokens) fn raw
               (mkState (h ++ [(u, Some acc)])%list p) in
    let texts := running acc (filter PyStr.truthy tokens) in
    outcome r = Ok (fn, raw)
    /\ events r
       = map (fun text => Yield (h ++ [(u, Some text)])%list snippets_text)
           texts
    /\ final r
       = mkState
           (h ++ [(u, Some (acc ++ PyStr.join EmptyString tokens)%string)])%list
           p
    /\ prefix_growing (acc :: texts).
Proof.
  induction tokens as [|token rest IH]; intros fn raw h u acc p r texts.
  - subst r texts. cbn. rewrite append_empty_r. repeat split.
  - subst r texts. cbn [map consume_chunks filter].
    pose proof (consume_content_chunk snippets_text token fn raw h u acc p)
      as E.
    rewrite join_empty_cons.
    destruct token as [|c token]; cbn [PyStr.truthy] in *.
    + rewrite (bind_Ok _ _ _ E), after_eta. cbn [append]. apply IH.
    + rewrite (bind_Ok _ _ _ E), outcome_after, events_after, final_after.
      specialize (IH fn raw h u (acc ++ String c token) p).
      cbv zeta in IH. destruct IH as (O & Ev & F & G).
      rewrite O, Ev, F, <- append_assoc. cbn [running map app].
      repeat split; [apply prefix_append | exact G].
Qed.

End Runs.

Lemma handle_message_submit_Ok repo_full_name user_message h h' :
  handle_message_submit repo_full_name user_message h = Ok h' ->
  h' = (h ++ [(Some user_message, None)])%list.
Proof.
  unfold handle_message_submit.
  destruct (PyStr.truthy repo_full_name); [|discriminate].
  intros H. injection H as <-. reflexivity.
Qed.

Lemma search_needed_spec (snippets_text : string) :
  search_needed snippets_text = true <->
  snippets_text <> EmptyString
  /\ PyStr.count PyStr.nl_char (PyStr.strip snippets_text) = 0.
Proof.
  unfold search_needed. rewrite andb_true_iff, Nat.eqb_eq.
  destruct snippets_text as [|c s]; cbn [PyStr.truthy].
  - split; intros [H1 H2]; [discriminate | contradiction].
  - split; intros [_ H2]; split; auto. discriminate.
Qed.

Lemma is_ok_spec (unicode_lower : string -> string) (m : string) :
  is_ok (PyStr.lower unicode_lower (PyStr.strip m)) = true
  <-> confirming unicode_lower m.
Proof.
  unfold is_ok, confirming. rewrite orb_true_iff, !String.eqb_eq. tauto.
Qed.

Lemma pending_Some (p : option dict) :
  pending p = true -> exists d, p = Some d /\ Py.dict_truthy d = true.
Proof.
  destruct p as [d|]; [|discriminate]. intros H. exists d. split; auto.
Qed.

Section Turn.

Variable api_client : APIClient.
Variable json_loads : string -> result json.
Variable repr : json -> string.
Variable get_preview : Snippet -> Z -> string.
Variable unicode_lower : string -> string.

Local Abbreviation turn :=
  (handle_message_stream api_client json_loads repr get_preview unicode_lower).

Lemma turn_reaches_reply snippets_text repo_name h u a p :
  search_answers api_client snippets_text u ->
  exists t0 snippets text a',
    Forall (fun e => search_phase e = true) t0
    /\ turn snippets_text repo_name (mkState (h ++ [(u, a)])%list p)
       = after t0 (reply api_client json_loads repr unicode_lower snippets text
                     (mkState (h ++ [(u, a')])%list p)).
Proof.
  intros HS. rewrite handle_message_stream_run.
  destruct (search_needed snippets_text) eqn:N.
  - destruct (HS N) as [snippets E]. rewrite E. cbv zeta.
    rewrite after_after.
    eexists _, snippets, _, _. split; [|reflexivity].
    repeat constructor.
  - eexists _, [], _, a. split; [|reflexivity]. repeat constructor.
Qed.

Lemma search_phase_no_create_pr t0 :
  Forall (fun e => search_phase e = true) t0 ->
  Forall (fun e => is_create_pr e = false) t0.
Proof.
  apply Forall_impl. intros e H. destruct e; cbn in *; congruence.
Qed.

Lemma file_change_requests_Ok (d : dict) items requests :
  Py.dict_get "plan" d = Some (JArr items) ->
  Forall2 (fun item request =>
             Py.getitem item "file_path" = Ok (fst request)
             /\ Py.getitem item "instructions" = Ok (snd request))
          items requests ->
  file_change_requests d = Ok requests.
Proof.
  intros Hplan Hitems. unfold file_change_requests.
  cbn [Py.getitem]. rewrite Hplan. cbn [Py.iter]. clear Hplan.
  induction Hitems as [|item [fp ins] items requests [H1 H2] _ IH];
    [reflexivity|].
  cbn [map_result]. unfold file_change_request at 1.
  rewrite H1, H2, IH. reflexivity.
Qed.

Lemma confirm_pr_run (d : dict) snippets_text h u a p
  requests title summary branch :
  file_change_requests d = Ok requests ->
  Py.dict_get "title" d = Some title ->
  Py.dict_get "summary" d = Some summary ->
  Py.dict_get "branch" d = Some branch ->
  let creating := (h ++ [(u, Some creating_pr)])%list in
  let pr := mkPullRequest title summary branch in
  confirm_pr api_client repr d snippets_text (mkState (h ++ [(u, a)])%list p)
  = after [Yield creating snippets_text; CreatePR requests pr creating]
      match create_pr api_client requests pr creating with
      | Ok response =>
          match Py.getitem response "html_url" with
          | Ok url =>
              let created := (h ++ [(u, Some (pr_created repr url))])%list in
              (Ok tt, mkState created p, [Yield created snippets_text])
          | Raise e => (Raise e, mkState creating p, [])
          end
      | Raise e => (Raise e, mkState creating p, [])
      end.
Proof.
  intros Hreq Ht Hs Hb creating pr. unfold confirm_pr.
  rewrite (bind_Ok _ _ _ (set_assistant_snoc _ h u a p)).
  rewrite (bind_Ok _ _ _ (yield_run _ _)).
  rewrite Hreq, (bind_Ok _ _ _ (lift_Ok _ _)).
  cbn [Py.getitem]. rewrite Ht, Hs, Hb.
  rewrite !(bind_Ok _ _ _ (lift_Ok _ _)).
  rewrite (bind_Ok _ _ _ (get_run _)).
  rewrite (bind_Ok _ _ _ (emit_run _ _)).
  cbn [chat_history]. fold creating. fold pr.
  destruct (create_pr api_client requests pr creating) as [response|e];
    [|reflexivity].
  rewrite (bind_Ok _ _ _ (lift_Ok _ _)).
  destruct (Py.getitem response "html_url") as [url|e]; [|reflexivity].
  rewrite (bind_Ok _ _ _ (lift_Ok _ _)).
  subst creating.
  rewrite (bind_Ok _ _ _ (set_assistant_snoc _ h u _ p)).
  rewrite yield_run. reflexivity.
Qed.

Lemma generate_response_no_create_pr snippets snippets_text s :
  Forall (fun e => is_create_pr e = false)
    (events (generate_response api_client json_loads repr unicode_lower snippets
               snippets_text s)).
Proof.
  apply (@preserves_generate_response any_state
           (fun e => is_create_pr e = false)); unfold any_state; auto.
  intros. apply preserves_propose_pr; unfold any_state; auto.
Qed.

Lemma well_formed_Some (d : dict) :
  well_formed d = true ->
  exists requests title summary branch,
    file_change_requests d = Ok requests
    /\ Py.dict_get "title" d = Some title
    /\ Py.dict_get "summary" d = Some summary
    /\ Py.dict_get "branch" d = Some branch.
Proof.
  unfold well_formed.
  destruct (file_change_requests d) as [requests|]; [|discriminate].
  destruct (Py.dict_get "title" d) as [t|]; [|discriminate].
  destruct (Py.dict_get "summary" d) as [s|]; [|discriminate].
  destruct (Py.dict_get "branch" d) as [b|]; [|discriminate].
  intros _. eexists _, _, _, _. repeat split.
Qed.

Lemma reply_run snippets snippets_text h (m : string) a p :
  reply api_client json_loads repr unicode_lower snippets snippets_text
    (mkState (h ++ [(Some m, a)])%list p)
  = match (if pending p && is_ok (PyStr.lower unicode_lower (PyStr.strip m))
           then p else None) with
    | Some d =>
        confirm_pr api_client repr d snippets_text
          (mkState (h ++ [(Some m, a)])%list p)
    | None =>
        generate_response api_client json_loads repr unicode_lower snippets
          snippets_text
          (mkState (h ++ [(Some m, a)])%list p)
    end.
Proof.
  unfold reply.
  rewrite (bind_Ok _ _ _ (confirmation_run unicode_lower h m a p)).
  rewrite after_eta.
  destruct (if pending p && is_ok (PyStr.lower unicode_lower (PyStr.strip m))
            then p else None); reflexivity.
Qed.

Lemma reply_no_search snippets snippets_text s :
  filter is_search
    (events (reply api_client json_loads repr unicode_lower snippets
      snippets_text s)) = [].
Proof.
  apply filter_none.
  apply (@preserves_reply any_state (fun e => is_search e = false));
    unfold any_state; auto.
  intros. apply preserves_propose_pr; unfold any_state; auto.
Qed.

Lemma searches_of_turn snippets_text repo_name h u a p :
  filter is_search
    (events (turn snippets_text repo_name (mkState (h ++ [(u, a)])%list p)))
  = if search_needed snippets_text then [Search u 3] else [].
Proof.
  rewrite handle_message_stream_run, events_after.
  cbn [app filter is_search].
  destruct (search_needed snippets_text).
  - destruct (search api_client u 3) as [snippets|e]; [|reflexivity].
    cbv zeta. rewrite events_after. cbn [app filter is_search].
    rewrite reply_no_search. reflexivity.
  - apply reply_no_search.
Qed.

(** C1 (amended): on a turn submission the snippet search is called exactly
    once, with the latest user message and fanout 3, if and only if the
    snippet block is not empty and, once its surrounding whitespace is
    trimmed, holds no line break; otherwise it is not called at all. *)
Theorem search_iff_block_unrendered
  repo_full_name user_message h h' p snippets_text repo_name :
  handle_message_submit repo_full_name user_message h = Ok h' ->
  let calls :=
    filter is_search (events (turn snippets_text repo_name (mkState h' p))) in
  let unrendered :=
    snippets_text <> EmptyString
    /\ PyStr.count PyStr.nl_char (PyStr.strip snippets_text) = 0 in
  (calls = [Search (Some user_message) 3] <-> unrendered)
  /\ (calls = [] <-> ~ unrendered).
Proof.
  intros H calls unrendered. apply handle_message_submit_Ok in H. subst h'.
  subst calls. rewrite searches_of_turn.
  pose proof (search_needed_spec snippets_text) as S. fold unrendered in S.
  destruct (search_needed snippets_text).
  - assert (U : unrendered) by (apply S; reflexivity).
    split; split; auto; try discriminate. intros N. contradiction.
  - assert (U : ~ unrendered) by (intros U; apply S in U; discriminate).
    split; split; auto; try discriminate. intros N. contradiction.
Qed.

Lemma confirm_pr_ill_formed (d : dict) snippets_text h u a p :
  well_formed d = false ->
  let creating := (h ++ [(u, Some creating_pr)])%list in
  exists e,
    confirm_pr api_client repr d snippets_text (mkState (h ++ [(u, a)])%list p)
    = (Raise e, mkState creating p, [Yield creating snippets_text]).
Proof.
  intros Hwf creating. unfold confirm_pr.
  rewrite (bind_Ok _ _ _ (set_assistant_snoc _ h u a p)).
  rewrite (bind_Ok _ _ _ (yield_run _ _)).
  unfold well_formed in Hwf. cbn [Py.getitem].
  destruct (file_change_requests d) as [requests|e];
    [|exists e; reflexivity].
  rewrite (bind_Ok _ _ _ (lift_Ok _ _)).
  destruct (Py.dict_get "title" d) as [title|];
    [|exists KeyError; reflexivity].
  rewrite (bind_Ok _ _ _ (lift_Ok _ _)).
  destruct (Py.dict_get "summary" d) as [summary|];
    [|exists KeyError; reflexivity].
  rewrite (bind_Ok _ _ _ (lift_Ok _ _)).
  destruct (Py.dict_get "branch" d) as [branch|];
    [discriminate | exists KeyError; reflexivity].
Qed.

Lemma confirm_pr_keeps_proposal (d : dict) snippets_text s :
  proposed_pr (final (confirm_pr api_client repr d snippets_text s))
  = proposed_pr s.
Proof.
  apply (@preserves_confirm_pr same_proposal (fun _ => True));
    unfold same_proposal; cbn; auto; congruence.
Qed.

(** The turns that issue the create-PR call. *)
Lemma create_pr_issued snippets_text repo_name h (m : string) a d :
  search_answers api_client snippets_text (Some m) ->
  Py.dict_truthy d = true -> well_formed d = true ->
  confirming unicode_lower m ->
  existsb is_create_pr
    (events (turn snippets_text repo_name
               (mkState (h ++ [(Some m, a)])%list (Some d)))) = true.
Proof.
  intros HS Hd Hwf Hc.
  destruct (@turn_reaches_reply snippets_text repo_name h _ a (Some d) HS)
    as (t0 & snippets & text & a' & Ht0 & E).
  rewrite E, events_after, existsb_app, reply_run. cbn [pending].
  apply is_ok_spec in Hc. rewrite Hd, Hc. cbn [andb].
  destruct (well_formed_Some _ Hwf)
    as (requests & title & summary & branch & H1 & H2 & H3 & H4).
  rewrite (confirm_pr_run _ _ _ _ _ _ _ _ _ _ H1 H2 H3 H4), events_after.
  cbn. apply orb_true_r.
Qed.

Lemma create_pr_issued_inv snippets_text repo_name h (m : string) a p :
  let r := turn snippets_text repo_name (mkState (h ++ [(Some m, a)])%list p) in
  existsb is_create_pr (events r) = true ->
  proposed_pr (final r) = p
  /\ confirming unicode_lower m
  /\ exists d, p = Some d /\ Py.dict_truthy d = true /\ well_formed d = true.
Proof.
  intros r. subst r. rewrite handle_message_stream_run.
  rewrite events_after, final_after. cbn [app existsb is_create_pr orb].
  assert (K : forall snippets text a',
             let r := reply api_client json_loads repr unicode_lower snippets
               text
                        (mkState (h ++ [(Some m, a')])%list p) in
             existsb is_create_pr (events r) = true ->
             proposed_pr (final r) = p
             /\ confirming unicode_lower m
             /\ exists d, p = Some d /\ Py.dict_truthy d = true
                          /\ well_formed d = true).
  { intros snippets text a' r. subst r. rewrite reply_run.
    destruct (pending p) eqn:Pp; cbn [andb].
    - destruct (is_ok _) eqn:O.
      + destruct (pending_Some _ Pp) as (d & -> & Hd).
        intros H. split; [apply confirm_pr_keeps_proposal|].
        split; [apply is_ok_spec, O|]. exists d. repeat split; auto.
        destruct (well_formed d) eqn:W; [reflexivity|].
        destruct (confirm_pr_ill_formed d text h (Some m) a' (Some d) W)
          as [e E].
        rewrite E in H. discriminate.
      + rewrite (existsb_none _ _ (generate_response_no_create_pr _ _ _)).
        discriminate.
    - rewrite (existsb_none _ _ (generate_response_no_create_pr _ _ _)).
      discriminate. }
  destruct (search_needed snippets_text).
  - destruct (search api_client (Some m) 3) as [snippets|e];
      [|discriminate].
    cbv zeta. rewrite events_after, final_after.
    cbn [app existsb is_create_pr orb]. apply K.
  - apply K.
Qed.

Lemma consume_stream_run snippets_text (st : stream) h u acc p :
  exists acc' t,
    consume_stream snippets_text st (mkState (h ++ [(u, Some acc)])%list p)
    = (if forallb carries_arguments (fragments st) then
         match failure st with
         | Some e => Raise e
         | None =>
             Ok (stream_name (Some EmptyString) (fragments st),
                 stream_arguments EmptyString (fragments st))
         end
       else Raise TypeError,
       mkState (h ++ [(u, Some acc')])%list p, t).
Proof.
  unfold consume_stream.
  destruct (consume_chunks_outcome snippets_text (fragments st)
              (Some EmptyString) EmptyString h u acc p)
    as (acc' & t & _ & E).
  exists acc'. destruct (forallb carries_arguments (fragments st)).
  - rewrite (bind_Ok _ _ _ E).
    destruct (failure st) as [e|]; eexists; reflexivity.
  - rewrite (bind_Raise _ _ _ E). eexists; reflexivity.
Qed.

(** An unconfirmed turn gets to the end of its stream. *)
Lemma turn_reaches_finish snippets_text repo_name h (m : string) a p st :
  search_answers api_client snippets_text (Some m) ->
  unconfirmed unicode_lower p m ->
  streams api_client st ->
  exists t0 h1 acc text,
    let s1 := mkState (h1 ++ [(None, Some acc)])%list p in
    turn snippets_text repo_name (mkState (h ++ [(Some m, a)])%list p)
    = after t0
        (if forallb carries_arguments (fragments st) then
           match failure st with
           | Some e => (Raise e, s1, [])
           | None =>
               finish_call json_loads repr unicode_lower
                 (stream_name (Some EmptyString) (fragments st))
                 (stream_arguments EmptyString (fragments st)) text s1
           end
         else (Raise TypeError, s1, [])).
Proof.
  intros HS Hu Hst.
  destruct (@turn_reaches_reply snippets_text repo_name h _ a p HS)
    as (t0 & snippets & text & a' & _ & E).
  rewrite E, reply_run.
  assert (N : (if pending p && is_ok (PyStr.lower unicode_lower (PyStr.strip m))
               then p else None) = None).
  { destruct Hu as [Hp|Hc]; [rewrite Hp; reflexivity|].
    destruct (is_ok _) eqn:O; [apply is_ok_spec in O; contradiction|].
    rewrite andb_false_r. reflexivity. }
  rewrite N, generate_response_run. cbv zeta. rewrite Hst, after_after.
  destruct (consume_stream_run text st
              (h ++ [(Some m, a')])%list None EmptyString p)
    as (acc' & t & C).
  destruct (forallb carries_arguments (fragments st)).
  - destruct (failure st) as [e|].
    + rewrite (bind_Raise _ _ _ C), after_events.
      eexists _, _, _, text. reflexivity.
    + rewrite (bind_Ok _ _ _ C), after_after. cbn [fst snd].
      eexists _, _, _, text. reflexivity.
  - rewrite (bind_Raise _ _ _ C), after_events.
    eexists _, _, _, text. reflexivity.
Qed.

(** *** The stored proposal is well formed *)

Lemma plan_lines_requests (items : list json) lines :
  map_result (plan_line repr) items = Ok lines ->
  exists requests, map_result file_change_request items = Ok requests.
Proof.
  revert lines. induction items as [|item items IH]; intros lines H.
  - exists []. reflexivity.
  - cbn [map_result] in *. unfold plan_line at 1 in H.
    unfold file_change_request at 1.
    destruct (Py.getitem item "file_path") as [fp|]; [|discriminate].
    destruct (Py.getitem item "instructions") as [ins|]; [|discriminate].
    destruct (map_result (plan_line repr) items) as [ls|]; [|discriminate].
    destruct (IH ls eq_refl) as (requests & ->). eexists. reflexivity.
Qed.

Lemma default_branch_cases (arguments : json) s :
  (exists e, default_branch unicode_lower arguments s = (Raise e, s, []))
  \/ exists arguments',
       default_branch unicode_lower arguments s = (Ok arguments', s, [])
       /\ forall d', arguments' = JObj d' ->
                     exists b, Py.dict_get "branch" d' = Some b.
Proof.
  unfold default_branch.
  destruct (Py.contains "branch" arguments) as [[|]|e] eqn:C.
  - right. exists arguments. rewrite (bind_Ok _ _ _ (lift_Ok _ _)).
    split; [reflexivity|]. intros d' ->. cbn in C.
    unfold Py.dict_mem in C.
    destruct (Py.dict_get "branch" d') as [b|]; [eauto | discriminate].
  - rewrite (bind_Ok _ _ _ (lift_Ok _ _)).
    destruct (Py.getitem arguments "title") as [title|e] eqn:T;
      [|left; exists e; reflexivity].
    rewrite (bind_Ok _ _ _ (lift_Ok _ _)).
    destruct (branch_of unicode_lower title) as [branch|e];
      [|left; exists e; reflexivity].
    rewrite (bind_Ok _ _ _ (lift_Ok _ _)).
    destruct arguments; try discriminate.
    right. eexists. split; [reflexivity|].
    intros d' H. injection H as <-. eexists. apply dict_get_set_same.
  - left. exists e. reflexivity.
Qed.

Lemma render_proposal_cases (arguments : json) s :
  (exists e, render_proposal repr arguments s = (Raise e, s, []))
  \/ exists message,
       render_proposal repr arguments s = (Ok message, s, [])
       /\ exists d title summary requests,
            arguments = JObj d
            /\ Py.dict_get "title" d = Some title
            /\ Py.dict_get "summary" d = Some summary
            /\ file_change_requests d = Ok requests.
Proof.
  unfold render_proposal.
  destruct (Py.getitem arguments "title") as [title|e] eqn:T;
    [|left; exists e; reflexivity].
  rewrite (bind_Ok _ _ _ (lift_Ok _ _)).
  destruct (Py.getitem arguments "summary") as [summary|e] eqn:S;
    [|left; exists e; reflexivity].
  rewrite (bind_Ok _ _ _ (lift_Ok _ _)).
  destruct (Py.getitem arguments "plan") as [plan|e] eqn:Pl;
    [|left; exists e; reflexivity].
  rewrite (bind_Ok _ _ _ (lift_Ok _ _)).
  destruct (Py.iter plan) as [items|e] eqn:I;
    [|left; exists e; reflexivity].
  rewrite (bind_Ok _ _ _ (lift_Ok _ _)).
  destruct (map_result (plan_line repr) items) as [lines|e] eqn:L;
    [|left; exists e; reflexivity].
  rewrite (bind_Ok _ _ _ (lift_Ok _ _)).
  right. eexists. split; [reflexivity|].
  destruct arguments as [ | | | | |d]; try discriminate.
  cbn [Py.getitem] in T, S, Pl.
  destruct (Py.dict_get "title" d) as [t|] eqn:Td; [|discriminate].
  destruct (Py.dict_get "summary" d) as [sm|] eqn:Sd; [|discriminate].
  destruct (Py.dict_get "plan" d) as [pl|] eqn:Pd; [|discriminate].
  injection Pl as ->.
  destruct (plan_lines_requests _ _ L) as (requests & Rq).
  exists d, t, sm, requests. split; [reflexivity|].
  split; [exact Td|]. split; [exact Sd|].
  unfold file_change_requests. cbn [Py.getitem]. rewrite Pd, I. exact Rq.
Qed.

Lemma set_assistant_cases (v : string) s :
  (exists e, set_assistant v s = (Raise e, s, []))
  \/ exists h', set_assistant v s = (Ok tt, mkState h' (proposed_pr s), []).
Proof.
  unfold set_assistant. rewrite (bind_Ok _ _ _ (get_run _)).
  destruct (set_last (Some v) (chat_history s)) as [h'|].
  - right. exists h'. reflexivity.
  - left. exists IndexError. destruct s. reflexivity.
Qed.

Lemma propose_pr_keeps_proposal_ok (arguments : json) snippets_text :
  preserves keeps_proposal_ok (fun _ => True)
    (propose_pr repr unicode_lower arguments snippets_text).
Proof.
  assert (Refl : forall s, keeps_proposal_ok s s) by (intros s H; exact H).
  assert (Trans : forall a b c, keeps_proposal_ok a b ->
                                keeps_proposal_ok b c -> keeps_proposal_ok a c)
    by (unfold keeps_proposal_ok; auto).
  pose proof (preserves_assert_in keeps_proposal_ok (fun _ => True) Refl Trans)
    as A.
  unfold propose_pr.
  do 3 (apply preserves_bind; [ solve [auto] .. | apply A | intros _ ]).
  intros s. split; [|apply Forall_forall; trivial].
  intros Hok.
  destruct (default_branch_cases arguments s) as [[e E]|(arguments' & E & B)].
  { rewrite (bind_Raise _ _ _ E). exact Hok. }
  rewrite (bind_Ok _ _ _ E), final_after.
  destruct (render_proposal_cases arguments' s)
    as [[e E2]|(message & E2 & d & title & summary & requests
                & -> & Ht & Hs & Hr)].
  { rewrite (bind_Raise _ _ _ E2). exact Hok. }
  rewrite (bind_Ok _ _ _ E2), final_after.
  destruct (set_assistant_cases message s) as [[e E3]|(h' & E3)].
  { rewrite (bind_Raise _ _ _ E3). exact Hok. }
  rewrite (bind_Ok _ _ _ E3), final_after.
  rewrite (bind_Ok _ _ _ (yield_run _ _)), final_after.
  cbn. intros d0 H. injection H as <-.
  destruct (B d eq_refl) as (b & Hb).
  unfold well_formed. now rewrite Hr, Ht, Hs, Hb.
Qed.

(** Whatever a turn does, a stored proposal can be turned into a create-PR
    call: the hypothesis on the state in the statements below holds of
    every state a session reaches. *)
Lemma turn_keeps_proposal_ok snippets_text repo_name s :
  proposal_ok s ->
  proposal_ok (final (turn snippets_text repo_name s)).
Proof.
  apply (@preserves_handle_message_stream keeps_proposal_ok (fun _ => True));
    unfold keeps_proposal_ok; auto.
  intros. apply propose_pr_keeps_proposal_ok.
Qed.

(** C2 (amended): the turn issues the create-PR call only if a proposal is
    pending and the new user message, trimmed and lower-cased, is exactly ok
    or okay: no other message and no turn without a pending proposal issues
    it.  Such a message does issue it when the snippet search that line 112
    runs first (if the block calls for one) returns and the stored proposal
    has the shape line 174 gives it. *)
Theorem confirmed_iff_pending_and_ok
  snippets_text repo_name h (user_message : string) a p :
  (existsb is_create_pr
     (events (turn snippets_text repo_name
                (mkState (h ++ [(Some user_message, a)])%list p))) = true ->
   pending p = true /\ confirming unicode_lower user_message)
  /\ (search_answers api_client snippets_text (Some user_message) ->
      (forall d, p = Some d -> well_formed d = true) ->
      pending p = true /\ confirming unicode_lower user_message ->
      existsb is_create_pr
        (events (turn snippets_text repo_name
                   (mkState (h ++ [(Some user_message, a)])%list p))) = true).
Proof.
  split.
  - intros H.
    pose proof (create_pr_issued_inv snippets_text repo_name h user_message
                  a p) as K.
    cbv zeta in K. destruct (K H) as (_ & Hc & d & -> & Hd & _).
    split; [exact Hd | exact Hc].
  - intros HS Hwf [Hp Hc].
    destruct (pending_Some _ Hp) as (d & -> & Hd).
    apply create_pr_issued; auto.
Qed.

Lemma dict_get_truthy (k : string) (d : dict) v :
  Py.dict_get k d = Some v -> Py.dict_truthy d = true.
Proof. destruct d; [discriminate | reflexivity]. Qed.

(** C3: when a pending proposal is confirmed (and the snippet search is out
    of the way), the turn calls create-PR exactly once, with the plan entries
    as (file_path, instructions) pairs, the descriptor made of the proposal's
    title, its summary as content and its branch as branch name, and the
    whole chat history (its last assistant slot holding the progress note);
    when the call returns a URL, the turn ends normally on a yield whose
    assistant message contains that URL. *)
Theorem create_pr_receives_proposal
  snippets_text repo_name h (user_message : string) a d
  items requests title summary branch :
  search_answers api_client snippets_text (Some user_message) ->
  confirming unicode_lower user_message ->
  Py.dict_get "plan" d = Some (JArr items) ->
  Forall2 (fun item request =>
             Py.getitem item "file_path" = Ok (fst request)
             /\ Py.getitem item "instructions" = Ok (snd request))
          items requests ->
  Py.dict_get "title" d = Some title ->
  Py.dict_get "summary" d = Some summary ->
  Py.dict_get "branch" d = Some branch ->
  let r := turn snippets_text repo_name
             (mkState (h ++ [(Some user_message, a)])%list (Some d)) in
  let pr := mkPullRequest title summary branch in
  let messages := (h ++ [(Some user_message, Some creating_pr)])%list in
  filter is_create_pr (events r) = [CreatePR requests pr messages]
  /\ forall response url,
       create_pr api_client requests pr messages = Ok response ->
       Py.getitem response "html_url" = Ok (JStr url) ->
       outcome r = Ok tt
       /\ exists t h' text message,
            events r = (t ++ [Yield h' text])%list
            /\ h' = chat_history (final r)
            /\ rendered (Yield h' text) = Some message
            /\ PyStr.occurs_in url message.
Proof.
  intros HS Hc Hplan Hitems Ht Hs Hb r pr messages.
  destruct (@turn_reaches_reply snippets_text repo_name h _ a (Some d) HS)
    as (t0 & snippets & text & a' & Ht0 & E).
  subst r. rewrite E, events_after, outcome_after, final_after.
  rewrite reply_run. cbn [pending].
  rewrite (dict_get_truthy _ _ _ Hplan).
  apply is_ok_spec in Hc. rewrite Hc. cbn [andb].
  rewrite (confirm_pr_run _ _ _ _ _ _ _ _ _ _
             (file_change_requests_Ok _ _ _ Hplan Hitems) Ht Hs Hb).
  cbv zeta. fold pr. fold messages.
  rewrite events_after, outcome_after, final_after, filter_app.
  rewrite (filter_none _ _ (search_phase_no_create_pr _ Ht0)).
  split.
  - destruct (create_pr api_client requests pr messages) as [response|e];
      [|reflexivity].
    destruct (Py.getitem response "html_url"); reflexivity.
  - intros response url -> ->. split; [reflexivity|].
    cbn [events final outcome fst snd chat_history].
    exists (t0 ++ [Yield messages text; CreatePR requests pr messages])%list.
    eexists _, text, _. split; [rewrite <- app_assoc; reflexivity|].
    split; [reflexivity|]. split.
    + cbn [rendered]. rewrite last_turn_snoc. reflexivity.
    + exists "✅ PR created at ", EmptyString. unfold pr_created, fmt.
      rewrite append_empty_r. reflexivity.
Qed.

(** C4 (amended): a turn that issues the create-PR call, whether the call
    succeeds or not, leaves the pending proposal as it was: it is still
    pending, and the next message that says ok issues the call again. *)
Theorem proposal_kept_after_pr_creation
  snippets_text repo_name h (user_message : string) a p :
  let r := turn snippets_text repo_name
             (mkState (h ++ [(Some user_message, a)])%list p) in
  existsb is_create_pr (events r) = true ->
  proposed_pr (final r) = p
  /\ pending (proposed_pr (final r)) = true
  /\ forall snippets_text' repo_name' (next_message : string),
       confirming unicode_lower next_message ->
       search_answers api_client snippets_text' (Some next_message) ->
       existsb is_create_pr
         (events (turn snippets_text' repo_name'
                    (mkState
                       (chat_history (final r)
                        ++ [(Some next_message, None)])%list
                       (proposed_pr (final r))))) = true.
Proof.
  intros r H.
  destruct (create_pr_issued_inv snippets_text repo_name h user_message a p H)
    as (Hp & _ & d & -> & Hd & Hwf).
  fold r in Hp. rewrite Hp. split; [reflexivity|]. split; [exact Hd|].
  intros snippets_text' repo_name' next_message Hc HS.
  apply create_pr_issued; assumption.
Qed.

Lemma following_create_pr_app t0 t :
  Forall (fun e => is_create_pr e = false) t0 ->
  following_create_pr (t0 ++ t) = following_create_pr t.
Proof.
  induction 1 as [|e t0 He _ IH]; [reflexivity|].
  cbn [app following_create_pr]. rewrite He. exact IH.
Qed.

(** What a confirmed turn does from line 125 on. *)
Lemma confirm_pr_cases (d : dict) snippets_text h u a p :
  let r := confirm_pr api_client repr d snippets_text
             (mkState (h ++ [(u, a)])%list p) in
  (exists a', final r = mkState (h ++ [(u, a')])%list p)
  /\ existsb is_stream_chat (events r) = false
  /\ List.length (following_create_pr (events r)) <= 1
  /\ forallb is_yield (following_create_pr (events r)) = true.
Proof.
  intros r. subst r. destruct (well_formed d) eqn:W.
  - destruct (well_formed_Some _ W)
      as (requests & title & summary & branch & H1 & H2 & H3 & H4).
    rewrite (confirm_pr_run _ _ h u a p _ _ _ _ H1 H2 H3 H4).
    cbv zeta. rewrite final_after, events_after.
    destruct (create_pr _ _ _ _) as [response|e].
    + destruct (Py.getitem response "html_url") as [url|e]; cbn;
        (split; [eexists; reflexivity|]); repeat split; auto.
    + cbn. split; [eexists; reflexivity|]. repeat split; auto.
  - destruct (confirm_pr_ill_formed d snippets_text h u a p W) as [e E].
    rewrite E. cbn. split; [eexists; reflexivity|]. repeat split; auto.
Qed.

(** C10: a turn in which the proposal is pending and the message says ok
    never calls the chat stream, leaves the history with the rows it had,
    only the assistant slot of the confirming row changed, and after the
    create-PR call yields at most once more before it returns. *)
Theorem confirmed_turn_stops_after_create_pr
  snippets_text repo_name h (user_message : string) a p :
  pending p = true -> confirming unicode_lower user_message ->
  let r := turn snippets_text repo_name
             (mkState (h ++ [(Some user_message, a)])%list p) in
  existsb is_stream_chat (events r) = false
  /\ (exists a', chat_history (final r) = (h ++ [(Some user_message, a')])%list)
  /\ List.length (following_create_pr (events r)) <= 1
  /\ forallb is_yield (following_create_pr (events r)) = true.
Proof.
  intros Hp Hc r. subst r.
  destruct (pending_Some _ Hp) as (d & -> & Hd).
  apply is_ok_spec in Hc.
  assert (K : forall snippets text a',
             reply api_client json_loads repr unicode_lower snippets text
               (mkState (h ++ [(Some user_message, a')])%list (Some d))
             = confirm_pr api_client repr d text
                 (mkState (h ++ [(Some user_message, a')])%list (Some d))).
  { intros. rewrite reply_run. cbn [pending]. rewrite Hd, Hc. reflexivity. }
  rewrite handle_message_stream_run, events_after, final_after.
  destruct (search_needed snippets_text).
  - destruct (search api_client (Some user_message) 3) as [snippets|e].
    + cbv zeta. rewrite K, events_after, final_after.
      destruct (confirm_pr_cases d (render_snippets get_preview snippets) h
                  (Some user_message) (Some "Found relevant snippets.")
                  (Some d))
        as ((a' & F) & S & L & Y).
      rewrite F. cbn [app existsb is_stream_chat orb following_create_pr
                      is_create_pr chat_history].
      split; [exact S|]. split; [exists a'; reflexivity|]. split; assumption.
    + cbn. split; [reflexivity|]. split; [eexists; reflexivity|].
      split; auto.
  - rewrite K.
    destruct (confirm_pr_cases d snippets_text h (Some user_message) a (Some d))
      as ((a' & F) & S & L & Y).
    rewrite F. cbn [app existsb is_stream_chat orb following_create_pr
                    is_create_pr chat_history].
    split; [exact S|]. split; [exists a'; reflexivity|]. split; assumption.
Qed.

(** C9: the loop over the fragments returns exactly when every fragment
    that has a function call has its arguments; a fragment whose call has a
    name and no arguments makes the turn end in a [TypeError]. *)
Theorem call_without_arguments_aborts
  snippets_text repo_name h (user_message : string) a p st :
  search_answers api_client snippets_text (Some user_message) ->
  unconfirmed unicode_lower p user_message ->
  streams api_client st ->
  (forall fn raw h1 u acc p1,
     (exists v,
        outcome (consume_chunks snippets_text (fragments st) fn raw
                   (mkState (h1 ++ [(u, Some acc)])%list p1)) = Ok v)
     <-> forallb carries_arguments (fragments st) = true)
  /\ forall c name,
       In c (fragments st) ->
       chunk_function_call c = Some (mkCall (Some name) None) ->
       outcome (turn snippets_text repo_name
                  (mkState (h ++ [(Some user_message, a)])%list p))
       = Raise TypeError.
Proof.
  intros HS Hu Hst. split.
  - intros fn raw h1 u acc p1.
    destruct (consume_chunks_outcome snippets_text (fragments st)
                fn raw h1 u acc p1) as (acc' & t & _ & E).
    rewrite E. cbn [outcome fst].
    destruct (forallb carries_arguments (fragments st)).
    + split; [reflexivity | intros _; eexists; reflexivity].
    + split; [intros [v H]; discriminate | discriminate].
  - intros c name Hin Hcall.
    assert (N : forallb carries_arguments (fragments st) = false).
    { destruct (forallb carries_arguments (fragments st)) eqn:F;
        [|reflexivity].
      rewrite forallb_forall in F. specialize (F c Hin).
      unfold carries_arguments in F. rewrite Hcall in F. discriminate. }
    destruct (turn_reaches_finish snippets_text repo_name h user_message a p st
                HS Hu Hst) as (t0 & h1 & acc & text & E).
    cbv zeta in E. rewrite E, N. reflexivity.
Qed.

Lemma assert_in_run (k : string) (d : dict) s :
  assert_in k (JObj d) s
  = (if Py.dict_mem k d then Ok tt else Raise AssertionError, s, []).
Proof.
  unfold assert_in. cbn [Py.contains].
  rewrite (bind_Ok _ _ _ (lift_Ok _ _)).
  destruct (Py.dict_mem k d); reflexivity.
Qed.


Lemma propose_pr_missing_key (d : dict) snippets_text s :
  Py.dict_mem "title" d = false \/ Py.dict_mem "summary" d = false
  \/ Py.dict_mem "plan" d = false ->
  propose_pr repr unicode_lower (JObj d) snippets_text s = (Raise
    AssertionError, s, []).
Proof.
  intros H. unfold propose_pr.
  pose proof (assert_in_run "title" d s) as T.
  destruct (Py.dict_mem "title" d);
    [rewrite (bind_Ok _ _ _ T) | rewrite (bind_Raise _ _ _ T); reflexivity].
  pose proof (assert_in_run "summary" d s) as S.
  destruct (Py.dict_mem "summary" d);
    [rewrite (bind_Ok _ _ _ S) | rewrite (bind_Raise _ _ _ S); reflexivity].
  pose proof (assert_in_run "plan" d s) as P.
  destruct (Py.dict_mem "plan" d);
    [|rewrite (bind_Raise _ _ _ P); reflexivity].
  destruct H as [H|[H|H]]; discriminate.
Qed.

Lemma finish_call_create_pr raw snippets_text s arguments :
  json_loads raw = Ok arguments ->
  finish_call json_loads repr unicode_lower (Some "create_pr") raw
    snippets_text s
  = propose_pr repr unicode_lower arguments snippets_text s.
Proof.
  intros H. unfold finish_call. cbn [PyStr.truthy].
  rewrite H, (bind_Ok _ _ _ (lift_Ok _ _)). cbn [String.eqb Ascii.eqb].
  cbn. apply after_eta.
Qed.

(** C5: when the stream of an unconfirmed turn ends with the function name
    create_pr and arguments that parse to an object without title, summary
    or plan, the turn ends in an [AssertionError] and the pending proposal
    is what it was before the turn. *)
Theorem missing_key_rejects_proposal
  snippets_text repo_name h (user_message : string) a p st d :
  search_answers api_client snippets_text (Some user_message) ->
  unconfirmed unicode_lower p user_message ->
  streams api_client st ->
  failure st = None ->
  forallb carries_arguments (fragments st) = true ->
  stream_name (Some EmptyString) (fragments st) = Some "create_pr" ->
  json_loads (stream_arguments EmptyString (fragments st)) = Ok (JObj d) ->
  Py.dict_mem "title" d = false \/ Py.dict_mem "summary" d = false
  \/ Py.dict_mem "plan" d = false ->
  let r := turn snippets_text repo_name
             (mkState (h ++ [(Some user_message, a)])%list p) in
  outcome r = Raise AssertionError /\ proposed_pr (final r) = p.
Proof.
  intros HS Hu Hst Hf Hc Hn Hj Hm r. subst r.
  destruct (turn_reaches_finish snippets_text repo_name h user_message a p st
              HS Hu Hst) as (t0 & h1 & acc & text & E).
  cbv zeta in E.
  rewrite E, Hc, Hf, Hn, (finish_call_create_pr _ _ _ _ Hj).
  rewrite (propose_pr_missing_key _ _ _ Hm).
  split; reflexivity.
Qed.








End Turn.

(** C1, witness: a first message on the initial block. *)
Lemma search_iff_block_unrendered_witness :
  let calls :=
    filter is_search
      (events (handle_message_stream (Demo.client Demo.quiet) (Demo.loads [])
                 Demo.repr Demo.preview Demo.lower "### Relevant snippets" "o/r"
                 (mkState [(Some "hi", None)] None))) in
  calls = [Search (Some "hi") 3].
Proof.
  intros calls.
  apply (search_iff_block_unrendered (Demo.client Demo.quiet) (Demo.loads [])
           Demo.repr Demo.preview Demo.lower "o/r" "hi" [] [(Some "hi", None)]
             None
           "### Relevant snippets" "o/r" eq_refl).
  split; [discriminate | reflexivity].
Defined.

(** C1, counterexample: the claim has the search run on an empty block; the
    empty block fails the first test of line 107 and nothing is searched. *)
Lemma empty_block_not_searched :
  let calls :=
    filter is_search
      (events (handle_message_stream (Demo.client Demo.quiet) (Demo.loads [])
                 Demo.repr Demo.preview Demo.lower EmptyString "o/r"
                 (mkState [(Some "hi", None)] None))) in
  ~ (List.length calls = 1 <->
     EmptyString = EmptyString
     \/ PyStr.count PyStr.nl_char EmptyString = 0).
Proof.
  intros calls [_ H].
  specialize (H (or_introl eq_refl)). vm_compute in H. discriminate.
Qed.

(** A block that ends in a line break and has none inside, such as the
    header that line 119 renders when the search finds nothing, is searched
    again. *)
Example header_only_block_searched_again :
  filter is_search
    (events (handle_message_stream (Demo.client Demo.quiet) (Demo.loads [])
               Demo.repr Demo.preview Demo.lower
               ("### Relevant snippets:" ++ PyStr.nl) "o/r"
               (mkState [(Some "hi", None)] None)))
  = [Search (Some "hi") 3].
Proof. reflexivity. Qed.

(** C2, witness: a pending proposal and the message OK between blanks; the
    create-PR call is issued. *)
Lemma confirmed_iff_pending_and_ok_witness :
  existsb is_create_pr
    (events (handle_message_stream (Demo.client Demo.quiet) (Demo.loads [])
               Demo.repr Demo.preview Demo.lower "### Relevant snippets" "o/r"
               (mkState ([] ++ [(Some "  OK ", None)])%list
                        (Some Demo.proposal)))) = true.
Proof.
  apply (proj2 (confirmed_iff_pending_and_ok (Demo.client Demo.quiet)
                  (Demo.loads []) Demo.repr Demo.preview Demo.lower
                  "### Relevant snippets" "o/r" [] "  OK " None
                  (Some Demo.proposal))).
  - intros _. exists [Demo.snippet]. reflexivity.
  - intros d H. injection H as <-. reflexivity.
  - split; [reflexivity | left; reflexivity].
Defined.

(** C2, counterexample: the claim has every ok on a pending proposal issue
    the create-PR call; when the search of line 112 raises, the turn ends
    there and line 124 is never reached. *)
Lemma failed_search_blocks_confirmation :
  pending (Some Demo.proposal) = true
  /\ ~ (existsb is_create_pr
         (events (handle_message_stream (Outage.client Demo.quiet)
                    (Demo.loads []) Demo.repr Demo.preview Demo.lower
                    "### Relevant snippets" "o/r"
                    (mkState [(Some "ok", None)] (Some Demo.proposal))))
       = true
       <-> confirming Demo.lower "ok").
Proof.
  split; [reflexivity|]. intros [_ H].
  specialize (H (or_introl eq_refl)). vm_compute in H. discriminate.
Qed.

(** The second example of the specification: a longer message that starts
    with ok does not confirm, whatever the tables beyond ASCII say. *)
Example ok_please_wait_does_not_confirm (unicode_lower : string -> string) :
  ~ confirming unicode_lower "ok please wait".
Proof. intros [H|H]; vm_compute in H; discriminate. Qed.

(** Space characters of any width are trimmed: ok between an ideographic
    space (U+3000) and a no-break space (U+00A0) confirms. *)
Example wide_spaces_are_trimmed (unicode_lower : string -> string) :
  confirming unicode_lower
    (Demo.wide_space ++ "Ok" ++ String "194"%char (String "160"%char "")).
Proof. left. reflexivity. Qed.

(** Lower-casing beyond ASCII is the tables' business: with a table that
    knows the Kelvin sign (U+212A), the letter O followed by it confirms. *)
Example kelvin_sign_confirms : confirming Demo.lower ("O" ++ Demo.kelvin).
Proof. left. reflexivity. Qed.

(** C3, witness: the stored proposal of the examples, confirmed by ok. *)
Lemma create_pr_receives_proposal_witness :
  let r := handle_message_stream (Demo.client Demo.quiet) (Demo.loads [])
             Demo.repr Demo.preview Demo.lower "### Relevant snippets" "o/r"
             (mkState ([] ++ [(Some "ok", None)])%list (Some Demo.proposal)) in
  filter is_create_pr (events r)
  = [CreatePR [(JStr "tests/test_client.py", JStr "cover search")]
       (mkPullRequest (JStr "Add tests") (JStr "Unit tests for the client")
          (JStr "add_tests"))
       [(Some "ok", Some creating_pr)]]
  /\ outcome r = Ok tt.
Proof.
  intros r.
  destruct (create_pr_receives_proposal (Demo.client Demo.quiet) (Demo.loads [])
              Demo.repr Demo.preview Demo.lower "### Relevant snippets" "o/r" []
                "ok" None
              Demo.proposal
              [JObj [("file_path", JStr "tests/test_client.py");
                     ("instructions", JStr "cover search")]]
              [(JStr "tests/test_client.py", JStr "cover search")]
              (JStr "Add tests") (JStr "Unit tests for the client")
              (JStr "add_tests")) as [H1 H2].
  - intros _. exists [Demo.snippet]. reflexivity.
  - left. reflexivity.
  - reflexivity.
  - repeat constructor.
  - reflexivity.
  - reflexivity.
  - reflexivity.
  - split; [exact H1|].
    exact (proj1 (H2 _ Demo.pull_url eq_refl eq_refl)).
Defined.

(** C4, witness: after the confirmed turn the proposal is still stored. *)
Lemma proposal_kept_after_pr_creation_witness :
  proposed_pr
    (final (handle_message_stream (Demo.client Demo.quiet) (Demo.loads [])
              Demo.repr Demo.preview Demo.lower "### Relevant snippets" "o/r"
              (mkState ([] ++ [(Some "ok", None)])%list (Some Demo.proposal))))
  = Some Demo.proposal.
Proof.
  apply (proposal_kept_after_pr_creation (Demo.client Demo.quiet)
           (Demo.loads []) Demo.repr Demo.preview Demo.lower
             "### Relevant snippets"
           "o/r" [] "ok" None (Some Demo.proposal)).
  reflexivity.
Defined.

(** C4, counterexample: the claim has the proposal cleared once the pull
    request is created; here the call succeeds and the proposal stays. *)
Lemma proposal_not_cleared :
  let r := handle_message_stream (Demo.client Demo.quiet) (Demo.loads [])
             Demo.repr Demo.preview Demo.lower "### Relevant snippets" "o/r"
             (mkState [(Some "ok", None)] (Some Demo.proposal)) in
  ~ (outcome r = Ok tt -> existsb is_create_pr (events r) = true ->
     proposed_pr (final r) = None).
Proof.
  intros r H. specialize (H eq_refl eq_refl). vm_compute in H. discriminate.
Qed.

(** The same session, one message later: a second ok creates a second pull
    request although no new proposal was made. *)
Example second_ok_creates_again :
  let r := handle_message_stream (Demo.client Demo.quiet) (Demo.loads [])
             Demo.repr Demo.preview Demo.lower "### Relevant snippets" "o/r"
             (mkState [(Some "ok", None)] (Some Demo.proposal)) in
  let r' := handle_message_stream (Demo.client Demo.quiet) (Demo.loads [])
              Demo.repr Demo.preview Demo.lower "### Relevant snippets" "o/r"
              (mkState (chat_history (final r) ++ [(Some "ok", None)])%list
                       (proposed_pr (final r))) in
  List.length (filter is_create_pr (events r')) = 1.
Proof. reflexivity. Qed.

(** C10, witness: the confirmed turn of the examples. *)
Lemma confirmed_turn_stops_after_create_pr_witness :
  existsb is_stream_chat
    (events (handle_message_stream (Demo.client Demo.quiet) (Demo.loads [])
               Demo.repr Demo.preview Demo.lower "### Relevant snippets" "o/r"
               (mkState ([] ++ [(Some "ok", None)])%list (Some Demo.proposal))))
  = false.
Proof.
  apply (confirmed_turn_stops_after_create_pr (Demo.client Demo.quiet)
           (Demo.loads []) Demo.repr Demo.preview Demo.lower
             "### Relevant snippets"
           "o/r" [] "ok" None (Some Demo.proposal)).
  - reflexivity.
  - left. reflexivity.
Defined.

(** C7, counterexample: the claim has a render after every fragment; a
    fragment whose content is empty fails the test of line 150 and nothing
    is yielded for it. *)
Lemma empty_fragment_not_rendered :
  let r := consume_chunks EmptyString (map content_chunk [EmptyString])
             (Some EmptyString) EmptyString
             (mkState [(None, Some EmptyString)] None) in
  ~ (events r
     = map (fun text => Yield [(None, Some text)] EmptyString)
         (running EmptyString [EmptyString])).
Proof. intros r H. vm_compute in H. discriminate. Qed.

(** The content example of the specification, through a whole turn: the
    renders of the stream are Hel, then Hello. *)
Example hello_renders :
  let r := handle_message_stream (Demo.client Demo.hello_stream)
             (Demo.loads []) Demo.repr Demo.preview Demo.lower
             "### Relevant snippets" "o/r"
             (mkState [(Some "hi", None)] None) in
  map rendered (skipn 6 (events r)) = [Some "Hel"; Some "Hello"]
  /\ outcome r = Ok tt.
Proof. split; reflexivity. Qed.

(** C5, witness: the arguments parse to an object without a plan; the
    proposal of an earlier turn stays. *)
Lemma missing_key_rejects_proposal_witness :
  let r := handle_message_stream (Demo.client Demo.call_stream)
             (Demo.loads [((Demo.first_part ++ Demo.second_part)%string,
                           Demo.parsed_without_plan)])
             Demo.repr Demo.preview Demo.lower "### Relevant snippets" "o/r"
             (mkState ([] ++ [(Some "shorter title please", None)])%list
                      (Some Demo.proposal)) in
  outcome r = Raise AssertionError
  /\ proposed_pr (final r) = Some Demo.proposal.
Proof.
  apply (missing_key_rejects_proposal (Demo.client Demo.call_stream)
           (Demo.loads [((Demo.first_part ++ Demo.second_part)%string,
                         Demo.parsed_without_plan)])
           Demo.repr Demo.preview Demo.lower "### Relevant snippets" "o/r" []
           "shorter title please" None (Some Demo.proposal) Demo.call_stream
           [("title", JStr "X"); ("summary", JStr "S")]).
  - intros _. exists [Demo.snippet]. reflexivity.
  - right. intros [H|H]; vm_compute in H; discriminate.
  - intros messages snippets. reflexivity.
  - reflexivity.
  - reflexivity.
  - reflexivity.
  - reflexivity.
  - right. right. reflexivity.
Defined.


(** A branch that the arguments bring along is kept. *)
Example given_branch_is_kept :
  let arguments :=
    JObj [("title", JStr "X"); ("summary", JStr "S"); ("plan", JArr []);
          ("branch", JStr "Feature-1")] in
  let r := handle_message_stream (Demo.client Demo.call_stream)
             (Demo.loads [((Demo.first_part ++ Demo.second_part)%string,
                           arguments)])
             Demo.repr Demo.preview Demo.lower "### Relevant snippets" "o/r"
             (mkState [(Some "add tests", None)] None) in
  option_map (Py.dict_get "branch") (proposed_pr (final r))
  = Some (Some (JStr "Feature-1")).
Proof. reflexivity. Qed.

(** C9, witness: a call with a name and no arguments ends the turn. *)
Lemma call_without_arguments_aborts_witness :
  outcome (handle_message_stream (Demo.client Demo.bare_call_stream)
             (Demo.loads []) Demo.repr Demo.preview Demo.lower
             "### Relevant snippets" "o/r"
             (mkState ([] ++ [(Some "add tests", None)])%list None))
  = Raise TypeError.
Proof.
  apply (proj2 (call_without_arguments_aborts
                  (Demo.client Demo.bare_call_stream) (Demo.loads [])
                  Demo.repr Demo.preview Demo.lower "### Relevant snippets"
                    "o/r" []
                  "add tests" None None Demo.bare_call_stream
                  (fun _ => ex_intro _ [Demo.snippet] eq_refl)
                  (or_introl eq_refl)
                  (fun _ _ => eq_refl))
          (mkChunk None (Some (mkCall (Some "create_pr") None))) "create_pr").
  - left. reflexivity.
  - reflexivity.
Defined.

(** ** The repository selector *)

(** C8 (amended): the repository-change handler leaves the selected files
    and the cache of file previews as they are, whether it returns or
    raises, and likewise the file contents read at start-up. *)
Theorem repo_name_change_keeps_files
  (api_client : APIClient) (name : string) (a : Selectors.app) :
  let a' := snd (Selectors.repo_name_change api_client name a) in
  Selectors.selected_files a' = Selectors.selected_files a
  /\ Selectors.file_to_str a' = Selectors.file_to_str a
  /\ Selectors.path_to_contents a' = Selectors.path_to_contents a.
Proof.
  unfold Selectors.repo_name_change.
  destruct (get_installation_id api_client (Some name)) as [id|e].
  - destruct (Z.eqb id 0); repeat split.
  - repeat split.
Qed.

(** C8, counterexample: the claim has both emptied by a change of
    repository; a file selected in o/r is still selected, and still cached,
    after the change to o/other. *)
Lemma repo_change_keeps_selection :
  let a1 := snd (Selectors.file_names_change ["a.py"] Demo.start) in
  let a2 := snd (Selectors.repo_name_change (Demo.client Demo.quiet)
                   "o/other" a1) in
  ~ (Selectors.selected_files a2 = [] /\ Selectors.file_to_str a2 = []).
Proof. intros a1 a2 [H _]. vm_compute in H. discriminate. Qed.

(** What the file selector shows for the file of the example. *)
Example file_names_change_preview :
  fst (Selectors.file_names_change ["a.py"] Demo.start)
  = Ok (["a.py"],
        "### Relevant snippets:" ++ PyStr.nl ++ "a.py:0:1" ++ PyStr.nl
        ++ "```python" ++ PyStr.nl ++ "x = 1" ++ PyStr.nl ++ "..."
        ++ PyStr.nl ++ "```").
Proof. reflexivity. Qed.

(** * Further properties of the handlers *)

(** ** A turn that fails *)

Lemma same_proposal_refl s : same_proposal s s.
Proof. reflexivity. Qed.

Lemma same_proposal_trans a b c :
  same_proposal a b -> same_proposal b c -> same_proposal a c.
Proof. unfold same_proposal. congruence. Qed.

Lemma same_proposal_assistant s (h' : history) (v : option string) :
  set_last v (chat_history s) = Some h' ->
  same_proposal s (mkState h' (proposed_pr s)).
Proof. reflexivity. Qed.

Lemma same_proposal_append s (t : chat_turn) :
  same_proposal s (mkState (chat_history s ++ [t])%list (proposed_pr s)).
Proof. reflexivity. Qed.

Lemma raise_keeps_bind {A B : Type} (m : M A) (f : A -> M B) :
  preserves same_proposal (fun _ => True) m ->
  (forall a, raise_keeps_proposal (f a)) ->
  raise_keeps_proposal (bind m f).
Proof.
  intros Hm Hf s e. destruct (Hm s) as [HR _]. unfold same_proposal in HR.
  unfold bind. destruct (m s) as [[[a|e'] s1] t1]; cbn in HR.
  - specialize (Hf a s1 e).
    destruct (f a s1) as [[r s2] t2]. cbn in *.
    intros H. rewrite (Hf H). exact HR.
  - cbn. intros _. exact HR.
Qed.

Lemma raise_keeps_of_preserves {A : Type} (m : M A) :
  preserves same_proposal (fun _ => True) m -> raise_keeps_proposal m.
Proof. intros Hm s e _. apply (Hm s). Qed.

(** Closes the side conditions of the frame lemmas for [same_proposal]. *)
Ltac same_proposal_side :=
  first [ exact same_proposal_refl | exact same_proposal_trans
        | exact same_proposal_assistant | exact same_proposal_append
        | intros; exact I ].

Section FailedTurn.

Variable api_client : APIClient.
Variable json_loads : string -> result json.
Variable repr : json -> string.
Variable get_preview : Snippet -> Z -> string.
Variable unicode_lower : string -> string.

Lemma store_proposal_raise_keeps (arguments : json) :
  raise_keeps_proposal (store_proposal arguments).
Proof. intros s e. destruct arguments; cbn; intros H; congruence. Qed.

Lemma propose_pr_raise_keeps (arguments : json) snippets_text :
  raise_keeps_proposal (propose_pr repr unicode_lower arguments snippets_text).
Proof.
  unfold propose_pr.
  do 3 (apply raise_keeps_bind;
        [apply preserves_assert_in; same_proposal_side | intros _]).
  apply raise_keeps_bind;
    [apply preserves_default_branch; same_proposal_side | intros arguments'].
  apply raise_keeps_bind;
    [apply preserves_render_proposal; same_proposal_side | intros message].
  apply raise_keeps_bind;
    [apply preserves_set_assistant; same_proposal_side | intros _].
  apply raise_keeps_bind;
    [apply preserves_yield; same_proposal_side | intros _].
  apply store_proposal_raise_keeps.
Qed.

Lemma finish_call_raise_keeps function_name raw_arguments snippets_text :
  raise_keeps_proposal
    (finish_call json_loads repr unicode_lower function_name raw_arguments
      snippets_text).
Proof.
  unfold finish_call.
  destruct function_name as [name|];
    [|apply raise_keeps_of_preserves, preserves_ret; same_proposal_side].
  destruct (PyStr.truthy name);
    [|apply raise_keeps_of_preserves, preserves_ret; same_proposal_side].
  apply raise_keeps_bind;
    [apply preserves_lift; same_proposal_side | intros arguments].
  destruct (String.eqb name "create_pr");
    [apply propose_pr_raise_keeps|].
  apply raise_keeps_of_preserves, preserves_raise; same_proposal_side.
Qed.

Lemma generate_response_raise_keeps snippets snippets_text :
  raise_keeps_proposal
    (generate_response api_client json_loads repr unicode_lower snippets
      snippets_text).
Proof.
  unfold generate_response.
  apply raise_keeps_bind;
    [apply preserves_append_turn; same_proposal_side | intros _].
  apply raise_keeps_bind;
    [apply preserves_yield; same_proposal_side | intros _].
  apply raise_keeps_bind;
    [apply preserves_set_assistant; same_proposal_side | intros _].
  apply raise_keeps_bind;
    [apply preserves_get; same_proposal_side | intros s].
  apply raise_keeps_bind;
    [apply preserves_emit; same_proposal_side | intros _].
  apply raise_keeps_bind;
    [apply preserves_consume_stream; same_proposal_side | intros [fn raw]].
  apply finish_call_raise_keeps.
Qed.

(** X1: a turn that ends in an exception, whichever and wherever, leaves
    the pending proposal exactly as it was: line 174, the only assignment to
    [proposed_pr], is the last statement of the generator. *)
Theorem failed_turn_keeps_proposal snippets_text repo_name s e :
  outcome (handle_message_stream api_client json_loads repr get_preview
             unicode_lower snippets_text repo_name s) = Raise e ->
  proposed_pr
    (final (handle_message_stream api_client json_loads repr get_preview
              unicode_lower snippets_text repo_name s))
  = proposed_pr s.
Proof.
  revert s e. change (raise_keeps_proposal
                        (handle_message_stream api_client json_loads repr
                           get_preview unicode_lower snippets_text repo_name)).
  unfold handle_message_stream.
  apply raise_keeps_bind;
    [apply preserves_yield; same_proposal_side | intros _].
  apply raise_keeps_bind;
    [apply preserves_search_snippets; same_proposal_side
    | intros [snippets text]].
  unfold reply.
  apply raise_keeps_bind;
    [apply preserves_confirmation; same_proposal_side | intros [d|]].
  - apply raise_keeps_of_preserves, preserves_confirm_pr; same_proposal_side.
  - apply generate_response_raise_keeps.
Qed.

End FailedTurn.

(** ** The function call of a stream *)

Lemma stream_arguments_all (l : list chunk) (raw : string) :
  stream_arguments raw l = raw ++ all_arguments l.
Proof.
  revert raw. induction l as [|c l IH]; intros raw;
    cbn [stream_arguments all_arguments].
  - now rewrite append_empty_r.
  - destruct (chunk_function_call c) as [call|]; [|apply IH].
    destruct (fc_arguments call) as [arguments|]; [|apply IH].
    rewrite IH. apply append_assoc.
Qed.

Lemma or_name_given (fn name : option string) :
  name_given fn = true -> or_name fn name = fn.
Proof.
  destruct fn as [n|]; [|discriminate]. cbn. intros ->. reflexivity.
Qed.

Lemma or_name_not_given (fn name : option string) :
  name_given fn = false -> or_name fn name = name.
Proof.
  destruct fn as [n|]; [|reflexivity]. cbn. intros ->. reflexivity.
Qed.

Lemma stream_name_given (l : list chunk) (fn : option string) :
  name_given fn = true -> stream_name fn l = fn.
Proof.
  revert fn. induction l as [|c l IH]; intros fn H; [reflexivity|].
  cbn [stream_name]. destruct (chunk_function_call c) as [call|].
  - rewrite (or_name_given _ _ H). apply IH, H.
  - apply IH, H.
Qed.

Lemma stream_name_first (l : list chunk) (fn : option string) (n : string) :
  name_given fn = false -> first_name l = Some n -> stream_name fn l = Some n.
Proof.
  revert fn. induction l as [|c l IH]; intros fn H F; [discriminate|].
  cbn [stream_name first_name] in *.
  destruct (chunk_function_call c) as [call|]; [|apply IH; assumption].
  rewrite (or_name_not_given _ _ H).
  destruct (name_given (fc_name call)) eqn:G.
  - rewrite F in *. apply stream_name_given, G.
  - apply IH; assumption.
Qed.

Lemma stream_name_nameless (l : list chunk) (fn : option string) :
  name_given fn = false -> forallb nameless l = true ->
  name_given (stream_name fn l) = false.
Proof.
  revert fn. induction l as [|c l IH]; intros fn H N; [exact H|].
  cbn [stream_name forallb] in *. apply andb_true_iff in N as [Nc Nl].
  unfold nameless in Nc.
  destruct (chunk_function_call c) as [call|]; [|apply IH; assumption].
  rewrite (or_name_not_given _ _ H). apply IH; [|exact Nl].
  now apply negb_true_iff in Nc.
Qed.

Lemma first_name_given (l : list chunk) (n : string) :
  first_name l = Some n -> PyStr.truthy n = true.
Proof.
  induction l as [|c l IH]; [discriminate|]. cbn [first_name].
  destruct (chunk_function_call c) as [call|]; [|exact IH].
  destruct (name_given (fc_name call)) eqn:G; [|exact IH].
  intros E. rewrite E in G. exact G.
Qed.

Section FunctionCall.

Variable api_client : APIClient.
Variable json_loads : string -> result json.
Variable repr : json -> string.
Variable get_preview : Snippet -> Z -> string.
Variable unicode_lower : string -> string.

Local Abbreviation turn :=
  (handle_message_stream api_client json_loads repr get_preview unicode_lower).

(** X2: over the fragments of a stream that all carry their arguments, the
    loop returns the concatenation of the argument chunks in stream order
    and the first name that a fragment gives; a name already held is never
    replaced, and without any name given the name stays empty or none. *)
Theorem loop_keeps_first_name snippets_text (l : list chunk) fn raw h u acc p :
  forallb carries_arguments l = true ->
  exists fn',
    outcome (consume_chunks snippets_text l fn raw
               (mkState (h ++ [(u, Some acc)])%list p))
    = Ok (fn', raw ++ all_arguments l)
    /\ (name_given fn = true -> fn' = fn)
    /\ (name_given fn = false ->
        match first_name l with
        | Some n => fn' = Some n
        | None => name_given fn' = false
        end).
Proof.
  intros C.
  destruct (consume_chunks_outcome snippets_text l fn raw h u acc p)
    as (acc' & t & _ & E).
  rewrite E, C. cbn [outcome fst]. exists (stream_name fn l).
  rewrite stream_arguments_all. split; [reflexivity|]. split.
  - apply stream_name_given.
  - intros G. destruct (first_name l) as [n|] eqn:F.
    + apply stream_name_first; assumption.
    + apply stream_name_nameless; [exact G|].
      clear E C. induction l as [|c l IH]; [reflexivity|].
      cbn [first_name forallb nameless] in *. unfold nameless.
      destruct (chunk_function_call c) as [call|]; [|apply IH, F].
      destruct (name_given (fc_name call)) eqn:N.
      * destruct (fc_name call); discriminate.
      * cbn. apply IH, F.
Qed.



(** X4: when the stream of an unconfirmed turn gives a function name, the
    accumulated arguments are parsed before the name is looked at: a parse
    error ends the turn, whatever the name, create_pr included. *)
Theorem malformed_arguments_abort
  snippets_text repo_name h (user_message : string) a p st name e :
  search_answers api_client snippets_text (Some user_message) ->
  unconfirmed unicode_lower p user_message ->
  streams api_client st ->
  failure st = None ->
  forallb carries_arguments (fragments st) = true ->
  first_name (fragments st) = Some name ->
  json_loads (all_arguments (fragments st)) = Raise e ->
  let r := turn snippets_text repo_name
             (mkState (h ++ [(Some user_message, a)])%list p) in
  outcome r = Raise e /\ proposed_pr (final r) = p.
Proof.
  intros HS Hu Hst Hf Hc Hn Hj r. subst r.
  destruct (turn_reaches_finish api_client json_loads repr get_preview
              unicode_lower snippets_text repo_name
              h user_message a p st HS Hu Hst)
    as (t0 & h1 & acc & text & E).
  cbv zeta in E. rewrite E, Hc, Hf.
  rewrite (stream_name_first (fragments st) (Some EmptyString) name eq_refl Hn),
    stream_arguments_all.
  unfold finish_call. rewrite (first_name_given _ _ Hn).
  cbn [append]. rewrite Hj. split; reflexivity.
Qed.

(** X5: when the stream of an unconfirmed turn gives a function name other
    than create_pr and the arguments parse, the turn ends in
    [NotImplementedError] and the pending proposal is what it was. *)
Theorem unknown_function_is_refused
  snippets_text repo_name h (user_message : string) a p st name arguments :
  search_answers api_client snippets_text (Some user_message) ->
  unconfirmed unicode_lower p user_message ->
  streams api_client st ->
  failure st = None ->
  forallb carries_arguments (fragments st) = true ->
  first_name (fragments st) = Some name ->
  name <> "create_pr" ->
  json_loads (all_arguments (fragments st)) = Ok arguments ->
  let r := turn snippets_text repo_name
             (mkState (h ++ [(Some user_message, a)])%list p) in
  outcome r = Raise NotImplementedError /\ proposed_pr (final r) = p.
Proof.
  intros HS Hu Hst Hf Hc Hn Hne Hj r. subst r.
  destruct (turn_reaches_finish api_client json_loads repr get_preview
              unicode_lower snippets_text repo_name
              h user_message a p st HS Hu Hst)
    as (t0 & h1 & acc & text & E).
  cbv zeta in E. rewrite E, Hc, Hf.
  rewrite (stream_name_first (fragments st) (Some EmptyString) name eq_refl Hn),
    stream_arguments_all.
  unfold finish_call. rewrite (first_name_given _ _ Hn).
  cbn [append]. rewrite Hj, (bind_Ok _ _ _ (lift_Ok _ _)).
  apply String.eqb_neq in Hne. rewrite Hne. split; reflexivity.
Qed.

End FunctionCall.

(** ** Where a turn stops *)

Lemma last_slot_only_refl s : last_slot_only s s.
Proof. intros h u a H. exists a. exact H. Qed.

Lemma last_slot_only_trans a b c :
  last_slot_only a b -> last_slot_only b c -> last_slot_only a c.
Proof.
  intros H1 H2 h u x E. destruct (H1 h u x E) as (y & E1).
  exact (H2 h u y E1).
Qed.

Lemma last_slot_only_assistant s (h' : history) (v : option string) :
  set_last v (chat_history s) = Some h' ->
  last_slot_only s (mkState h' (proposed_pr s)).
Proof.
  intros H h u a E. apply set_last_Some in H as (pre & u0 & a0 & E1 & E2).
  rewrite E in E1. apply app_inj_tail in E1 as [<- E1].
  injection E1 as <- _. exists v. exact E2.
Qed.

Lemma last_slot_only_store s (d : dict) :
  last_slot_only s (mkState (chat_history s) (Some d)).
Proof. intros h u a E. exists a. exact E. Qed.

(** Closes the side conditions of the frame lemmas for [last_slot_only]. *)
Ltac last_slot_side :=
  first [ exact last_slot_only_refl | exact last_slot_only_trans
        | exact last_slot_only_assistant | exact last_slot_only_store
        | intros; exact I ].

Section Stops.

Variable api_client : APIClient.
Variable json_loads : string -> result json.
Variable repr : json -> string.
Variable get_preview : Snippet -> Z -> string.
Variable unicode_lower : string -> string.

Local Abbreviation turn :=
  (handle_message_stream api_client json_loads repr get_preview unicode_lower).

(** X6: when the block calls for a search and the search raises, the turn
    ends with that exception right after the call: nothing is asked of the
    chat or pull-request service, the pending proposal is untouched, and the
    last assistant slot is left on the progress note. *)
Theorem search_failure_ends_turn snippets_text repo_name h u a p e :
  search_needed snippets_text = true ->
  search api_client u 3 = Raise e ->
  let searching :=
    (h ++ [(u, Some "Searching for relevant snippets...")])%list in
  turn snippets_text repo_name (mkState (h ++ [(u, a)])%list p)
  = (Raise e, mkState searching p,
     [Yield (h ++ [(u, a)])%list snippets_text;
      Yield searching snippets_text; Search u 3]).
Proof.
  intros Hn He searching. rewrite handle_message_stream_run, Hn, He.
  reflexivity.
Qed.

(** X7: when a well-formed pending proposal is confirmed and the create-PR
    call raises, the turn ends with that exception and the call is its last
    event; the assistant slot stays on the progress note and the proposal
    stays pending, so that the user can confirm again. *)
Theorem create_pr_failure_keeps_proposal
  snippets_text repo_name h (user_message : string) a d e :
  search_answers api_client snippets_text (Some user_message) ->
  confirming unicode_lower user_message ->
  Py.dict_truthy d = true ->
  well_formed d = true ->
  (forall requests pr messages,
     create_pr api_client requests pr messages = Raise e) ->
  let r := turn snippets_text repo_name
             (mkState (h ++ [(Some user_message, a)])%list (Some d)) in
  outcome r = Raise e
  /\ final r
     = mkState (h ++ [(Some user_message, Some creating_pr)])%list (Some d)
  /\ exists t requests pr messages,
       events r = (t ++ [CreatePR requests pr messages])%list.
Proof.
  intros HS Hc Hd Hwf He r. subst r.
  destruct (turn_reaches_reply api_client json_loads repr get_preview
              unicode_lower snippets_text repo_name
              h (Some user_message) a (Some d) HS)
    as (t0 & snippets & text & a' & _ & E).
  rewrite E, reply_run. cbn [pending].
  apply is_ok_spec in Hc. rewrite Hd, Hc. cbn [andb].
  destruct (well_formed_Some _ Hwf)
    as (requests & title & summary & branch & H1 & H2 & H3 & H4).
  rewrite (confirm_pr_run _ _ _ _ _ _ _ _ _ _ _ _ H1 H2 H3 H4).
  cbv zeta. rewrite He, after_after.
  split; [reflexivity|]. split; [reflexivity|].
  eexists (t0 ++ [_])%list, _, _, _. cbn [events after snd].
  rewrite app_nil_r, <- app_assoc. reflexivity.
Qed.

(** X8: when the create-PR call answers with a value from which
    [html_url] cannot be read, the turn raises what the subscript raises,
    after the call: the pull request has been asked for, no confirmation is
    shown, and the proposal is still pending. *)
Theorem response_without_url_raises
  snippets_text repo_name h (user_message : string) a d response e :
  search_answers api_client snippets_text (Some user_message) ->
  confirming unicode_lower user_message ->
  Py.dict_truthy d = true ->
  well_formed d = true ->
  (forall requests pr messages,
     create_pr api_client requests pr messages = Ok response) ->
  Py.getitem response "html_url" = Raise e ->
  let r := turn snippets_text repo_name
             (mkState (h ++ [(Some user_message, a)])%list (Some d)) in
  outcome r = Raise e
  /\ existsb is_create_pr (events r) = true
  /\ final r
     = mkState (h ++ [(Some user_message, Some creating_pr)])%list (Some d).
Proof.
  intros HS Hc Hd Hwf Hr He r. subst r.
  destruct (turn_reaches_reply api_client json_loads repr get_preview
              unicode_lower snippets_text repo_name
              h (Some user_message) a (Some d) HS)
    as (t0 & snippets & text & a' & _ & E).
  rewrite E, reply_run. cbn [pending].
  apply is_ok_spec in Hc. rewrite Hd, Hc. cbn [andb].
  destruct (well_formed_Some _ Hwf)
    as (requests & title & summary & branch & H1 & H2 & H3 & H4).
  rewrite (confirm_pr_run _ _ _ _ _ _ _ _ _ _ _ _ H1 H2 H3 H4).
  cbv zeta. rewrite Hr, He, after_after.
  split; [reflexivity|]. split; [|reflexivity].
  rewrite events_after. apply existsb_exists. eexists. split.
  - apply in_or_app. left. apply in_or_app. right. right. left. reflexivity.
  - reflexivity.
Qed.

(** X9: on an empty chat history the turn yields once and ends in
    [IndexError] when the block calls for a search or a proposal is
    pending; it calls no remote service and changes nothing. *)
Theorem empty_history_raises snippets_text repo_name p :
  search_needed snippets_text || pending p = true ->
  turn snippets_text repo_name (mkState [] p)
  = (Raise IndexError, mkState [] p, [Yield [] snippets_text]).
Proof.
  intros H. unfold handle_message_stream.
  rewrite (bind_Ok _ _ _ (yield_run _ _)). unfold search_snippets.
  destruct (search_needed snippets_text); [reflexivity|].
  cbn [orb] in H. destruct p as [[|kv d]|]; try discriminate.
  reflexivity.
Qed.

(** X10: an unconfirmed turn whose search, if any, returns adds exactly one
    row to the history, a row without a user message, whatever the stream
    brings and however the turn ends; the rows before keep their user
    messages, and only the assistant slot of the submitted row may differ. *)
Theorem unconfirmed_turn_adds_one_row
  snippets_text repo_name h (user_message : string) a p :
  search_answers api_client snippets_text (Some user_message) ->
  unconfirmed unicode_lower p user_message ->
  exists a' reply_text,
    chat_history
      (final (turn snippets_text repo_name
                (mkState (h ++ [(Some user_message, a)])%list p)))
    = (h ++ [(Some user_message, a'); (None, reply_text)])%list.
Proof.
  intros HS Hu.
  destruct (turn_reaches_reply api_client json_loads repr get_preview
              unicode_lower snippets_text repo_name
              h (Some user_message) a p HS)
    as (t0 & snippets & text & a' & _ & E).
  rewrite E, reply_run, final_after.
  assert (N : (if pending p
                  && is_ok (PyStr.lower unicode_lower
                              (PyStr.strip user_message))
               then p else None) = None).
  { destruct Hu as [Hp|Hc]; [rewrite Hp; reflexivity|].
    destruct (is_ok _) eqn:O; [apply is_ok_spec in O; contradiction|].
    rewrite andb_false_r. reflexivity. }
  rewrite N, generate_response_run. cbv zeta. rewrite final_after.
  assert (K : preserves last_slot_only (fun _ => True)
                (bind (consume_stream text
                         (stream_chat api_client
                            ((h ++ [(Some user_message, a')])
                             ++ [(None, Some EmptyString)])%list snippets))
                      (fun x => finish_call json_loads repr unicode_lower
                                  (fst x) (snd x)
                                  text))).
  { apply preserves_bind; [exact last_slot_only_trans | |].
    - apply preserves_consume_stream; last_slot_side.
    - intros x. apply preserves_finish_call; try last_slot_side.
      intros. apply preserves_propose_pr; last_slot_side. }
  destruct (K (mkState ((h ++ [(Some user_message, a')])
                        ++ [(None, Some EmptyString)])%list p)) as [R _].
  destruct (R _ _ _ eq_refl) as (reply_text & F).
  exists a', reply_text. rewrite F, <- app_assoc. reflexivity.
Qed.

End Stops.

(** ** One kind of remote reply per turn *)

Lemma one_call_kind_bind {A B : Type} (m : M A) (f : A -> M B) :
  preserves any_state no_remote_reply m ->
  (forall a, one_call_kind (f a)) ->
  one_call_kind (bind m f).
Proof.
  intros Hm Hf s. destruct (Hm s) as [_ HP]. unfold bind.
  destruct (m s) as [[[a|e] s1] t1]; cbn in HP.
  - destruct (Hf a s1) as [H|H]; destruct (f a s1) as [[r s2] t2];
      cbn in *; [left|right]; apply Forall_app; split; auto;
      (eapply Forall_impl; [|exact HP]); intros x [? ?]; assumption.
  - left. cbn. eapply Forall_impl; [|exact HP]. intros x [? ?]; assumption.
Qed.

(** Closes the side conditions of the frame lemmas for [any_state]. *)
Ltac any_state_side :=
  first [ exact (fun _ => I) | exact (fun _ _ _ _ _ => I)
        | exact (fun _ _ _ _ => I) | intros; split; reflexivity ].

Section OneReply.

Variable api_client : APIClient.
Variable json_loads : string -> result json.
Variable repr : json -> string.
Variable get_preview : Snippet -> Z -> string.
Variable unicode_lower : string -> string.

(** X11: a turn never both creates a pull request and asks the chat for a
    reply: whatever the state and whatever the services answer, its trace
    holds a create-PR call or a chat request, never the two. *)
Theorem turn_confirms_or_converses snippets_text repo_name s :
  let t := events (handle_message_stream api_client json_loads repr
                     get_preview unicode_lower snippets_text repo_name s) in
  existsb is_create_pr t && existsb is_stream_chat t = false.
Proof.
  intros t. subst t.
  assert (K : one_call_kind
                (handle_message_stream api_client json_loads repr
                   get_preview unicode_lower snippets_text repo_name)).
  { unfold handle_message_stream.
    apply one_call_kind_bind;
      [apply preserves_yield; any_state_side | intros _].
    apply one_call_kind_bind;
      [apply preserves_search_snippets; any_state_side
      | intros [snippets text]].
    unfold reply.
    apply one_call_kind_bind;
      [apply preserves_confirmation; any_state_side | intros [d|]].
    - intros s'. right.
      apply (preserves_confirm_pr any_state
               (fun e => is_stream_chat e = false));
        first [ exact (fun _ => I) | exact (fun _ _ _ _ _ => I)
              | exact (fun _ _ _ _ => I) | intros; reflexivity ].
    - intros s'. left. apply generate_response_no_create_pr. }
  destruct (K s) as [H|H].
  - rewrite (existsb_none _ _ H). reflexivity.
  - rewrite (existsb_none _ _ H). apply andb_false_r.
Qed.

End OneReply.

(** ** The proposal over a session *)

Section SessionInvariant.

Variable api_client : APIClient.
Variable json_loads : string -> result json.
Variable repr : json -> string.
Variable get_preview : Snippet -> Z -> string.
Variable unicode_lower : string -> string.

Lemma proposal_after_ok turns :
  forall p,
    (forall d, p = Some d -> well_formed d = true) ->
    forall d,
      proposal_after api_client json_loads repr get_preview unicode_lower
        turns p = Some d ->
      well_formed d = true.
Proof.
  induction turns as [|[[snippets_text repo_name] h] rest IH];
    intros p Hp d H.
  - exact (Hp d H).
  - cbn [proposal_after] in H. eapply IH; [|exact H].
    apply (turn_keeps_proposal_ok api_client json_loads repr get_preview
             unicode_lower snippets_text repo_name (mkState h p)).
    exact Hp.
Qed.

(** X12: in a session that starts without a proposal, after any number of
    turns, on any histories and blocks and with any answers of the
    services, a pending proposal has a title, a summary, a branch and a plan
    whose entries all have a file path and instructions: the subscripts of
    the create-PR call of lines 127-135 cannot fail on it. *)
Theorem pending_proposal_is_well_formed turns d :
  proposal_after api_client json_loads repr get_preview unicode_lower
    turns None = Some d ->
  exists requests title summary branch,
    file_change_requests d = Ok requests
    /\ Py.dict_get "title" d = Some title
    /\ Py.dict_get "summary" d = Some summary
    /\ Py.dict_get "branch" d = Some branch.
Proof.
  intros H. apply well_formed_Some.
  apply (proposal_after_ok turns None); [discriminate | exact H].
Qed.

End SessionInvariant.

(** ** The snippet block from one turn to the next *)

Lemma count_app (a : ascii) (s t : string) :
  PyStr.count a (s ++ t) = PyStr.count a s + PyStr.count a t.
Proof.
  induction s as [|c s IH]; [reflexivity|].
  cbn [append PyStr.count]. rewrite IH. apply Nat.add_assoc.
Qed.

(** A byte below 128 is no part of a space character of two or three
    bytes. *)
Lemma isspace2_plain (c1 c : ascii) :
  (N_of_ascii c <? 128)%N = true -> PyStr.isspace2 c1 c = false.
Proof.
  intros H. apply N.ltb_lt in H. unfold PyStr.isspace2. cbv zeta.
  destruct (N.eqb_spec (N_of_ascii c) 133); [lia|].
  destruct (N.eqb_spec (N_of_ascii c) 160); [lia|].
  apply andb_false_r.
Qed.

Lemma isspace3_plain (c1 c2 c : ascii) :
  (N_of_ascii c <? 128)%N = true -> PyStr.isspace3 c1 c2 c = false.
Proof.
  intros H. apply N.ltb_lt in H. unfold PyStr.isspace3. cbv zeta.
  destruct (N.eqb_spec (N_of_ascii c) 128); [lia|].
  destruct (N.eqb_spec (N_of_ascii c) 159); [lia|].
  destruct (N.eqb_spec (N_of_ascii c) 168); [lia|].
  destruct (N.eqb_spec (N_of_ascii c) 169); [lia|].
  destruct (N.eqb_spec (N_of_ascii c) 175); [lia|].
  destruct (N.leb_spec 128 (N_of_ascii c)); [lia|].
  cbn [andb orb]. now rewrite !andb_false_r.
Qed.

(** A text that ends with a character of one byte that is no space is not
    blank. *)
Lemma blank_snoc (s : string) (c : ascii) :
  (N_of_ascii c <? 128)%N = true ->
  PyStr.isspace c = false ->
  PyStr.blank (s ++ String c EmptyString) = false.
Proof.
  intros H1 H2.
  assert (K : forall n s, String.length s <= n ->
              PyStr.blank (s ++ String c EmptyString) = false).
  { clear s. unfold PyStr.blank.
    induction n as [|n IH]; intros s L.
    - destruct s; [|cbn in L; lia]. cbn. now rewrite H2.
    - destruct s as [|c1 s1]; [cbn; now rewrite H2|].
      cbn [String.length] in L. cbn [append PyStr.lstrip].
      destruct (PyStr.isspace c1); [apply IH; lia|].
      destruct s1 as [|c2 s2]; cbn [append].
      + rewrite (isspace2_plain c1 c H1). reflexivity.
      + cbn [String.length] in L.
        destruct (PyStr.isspace2 c1 c2); [apply IH; lia|].
        destruct s2 as [|c3 s3]; cbn [append].
        * rewrite (isspace3_plain c1 c2 c H1). reflexivity.
        * cbn [String.length] in L.
          destruct (PyStr.isspace3 c1 c2 c3); [apply IH; lia | reflexivity]. }
  apply (K (String.length s)). lia.
Qed.

Lemma rstrip_snoc (s : string) (c : ascii) :
  (N_of_ascii c <? 128)%N = true ->
  PyStr.isspace c = false ->
  PyStr.rstrip (s ++ String c EmptyString) = s ++ String c EmptyString.
Proof.
  intros H1 H2. induction s as [|x s IH].
  - pose proof (blank_snoc EmptyString c H1 H2) as B.
    cbn [append PyStr.rstrip] in *. now rewrite B.
  - pose proof (blank_snoc (String x s) c H1 H2) as B.
    cbn [append PyStr.rstrip] in *. now rewrite B, IH.
Qed.

Lemma join_ends_with_backtick (sep x : string) (l : list string) :
  Forall ends_with_backtick (x :: l) ->
  ends_with_backtick (PyStr.join sep (x :: l)).
Proof.
  revert x. induction l as [|y l IH]; intros x H.
  - now inversion H.
  - inversion H as [|? ? _ Hl]; subst. destruct (IH y Hl) as (pre & E).
    exists (x ++ sep ++ pre). cbn [PyStr.join] in *. rewrite E.
    now rewrite !append_assoc.
Qed.

(** A header line followed by a body that ends in a backtick holds a line
    break that [strip] does not remove. *)
Lemma fenced_block_not_searched (body : string) :
  ends_with_backtick body ->
  search_needed ("### Relevant snippets:" ++ PyStr.nl ++ body) = false.
Proof.
  intros (pre & ->). unfold search_needed, PyStr.strip.
  rewrite <- !append_assoc.
  set (block := ("### Relevant snippets:" ++ PyStr.nl) ++ pre).
  assert (L : PyStr.lstrip (block ++ PyStr.backtick) = block ++ PyStr.backtick)
    by reflexivity.
  rewrite L. unfold PyStr.backtick at 2.
  rewrite rstrip_snoc by reflexivity.
  subst block. rewrite !count_app.
  change (PyStr.count PyStr.nl_char PyStr.nl) with 1.
  destruct (PyStr.count PyStr.nl_char "### Relevant snippets:" + 1
            + PyStr.count PyStr.nl_char pre
            + PyStr.count PyStr.nl_char
                (String PyStr.backtick_char EmptyString))
    eqn:C; [lia|].
  apply andb_false_r.
Qed.

Lemma render_snippet_ends (get_preview : Snippet -> Z -> string) s :
  ends_with_backtick (render_snippet get_preview s).
Proof.
  unfold render_snippet. eexists.
  change "```" with ("``" ++ PyStr.backtick).
  rewrite <- !append_assoc. reflexivity.
Qed.

Section NextTurn.

Variable api_client : APIClient.
Variable json_loads : string -> result json.
Variable repr : json -> string.
Variable get_preview : Snippet -> Z -> string.
Variable unicode_lower : string -> string.

(** X13: the block that a search renders decides the next search: on the
    block of a search that found at least one snippet the following turn
    does not search; on the block of a search that found nothing, the
    header alone, it searches again. *)
Theorem found_snippets_stop_next_search
  (snippets : list Snippet) repo_name h u a p :
  filter is_search
    (events (handle_message_stream api_client json_loads repr get_preview
               unicode_lower (render_snippets get_preview snippets) repo_name
               (mkState (h ++ [(u, a)])%list p)))
  = match snippets with
    | [] => [Search u 3]
    | _ :: _ => []
    end.
Proof.
  rewrite searches_of_turn.
  destruct snippets as [|s rest]; [reflexivity|].
  unfold render_snippets. rewrite fenced_block_not_searched; [reflexivity|].
  rewrite app_nil_r. cbn [map]. apply join_ends_with_backtick.
  constructor; [apply render_snippet_ends|].
  apply Forall_forall. intros x Hx. apply in_map_iff in Hx as (y & <- & _).
  apply render_snippet_ends.
Qed.

End NextTurn.

(** ** The file selector *)

Lemma lookup_store_same k v m :
  Selectors.lookup k (Selectors.store k v m) = Some v.
Proof.
  induction m as [|[k' v'] m IH]; cbn [Selectors.store Selectors.lookup].
  - now rewrite String.eqb_refl.
  - destruct (String.eqb k k') eqn:E; cbn [Selectors.lookup]; rewrite E; auto.
Qed.

Lemma lookup_store_other k k' v m :
  k' <> k ->
  Selectors.lookup k' (Selectors.store k v m) = Selectors.lookup k' m.
Proof.
  intros N. induction m as [|[k0 v0] m IH];
    cbn [Selectors.store Selectors.lookup].
  - apply String.eqb_neq in N. now rewrite N.
  - destruct (String.eqb k k0) eqn:E; cbn [Selectors.lookup].
    + apply String.eqb_eq in E. subst k0.
      apply String.eqb_neq in N. now rewrite N.
    + destruct (String.eqb k' k0); auto.
Qed.

Lemma fill_cache_keeps paths files :
  forall cache k v,
    Selectors.lookup k cache = Some v ->
    Selectors.lookup k (snd (Selectors.fill_cache paths files cache)) = Some v.
Proof.
  induction files as [|f files IH]; intros cache k v H; [exact H|].
  cbn [Selectors.fill_cache].
  destruct (Selectors.lookup f cache) eqn:F; [apply IH, H|].
  unfold Selectors.add_file_to_dict.
  destruct (Selectors.lookup f paths) as [contents|]; [|exact H].
  apply IH. rewrite lookup_store_other; [exact H|].
  intros ->. congruence.
Qed.

Lemma fill_cache_sound paths files :
  forall cache,
    (forall k v, Selectors.lookup k cache = Some v ->
                 exists c, Selectors.lookup k paths = Some c
                           /\ v = Selectors.file_entry k c) ->
    forall k v,
      Selectors.lookup k (snd (Selectors.fill_cache paths files cache))
      = Some v ->
      exists c, Selectors.lookup k paths = Some c
                /\ v = Selectors.file_entry k c.
Proof.
  induction files as [|f files IH]; intros cache S k v H; [exact (S k v H)|].
  cbn [Selectors.fill_cache] in H.
  destruct (Selectors.lookup f cache) eqn:F; [exact (IH cache S k v H)|].
  unfold Selectors.add_file_to_dict in H.
  destruct (Selectors.lookup f paths) as [contents|] eqn:P;
    [|exact (S k v H)].
  refine (IH _ _ k v H). intros k' v' H'.
  destruct (String.eqb_spec k' f) as [->|N].
  - rewrite lookup_store_same in H'. injection H' as <-. eauto.
  - rewrite lookup_store_other in H' by exact N. exact (S k' v' H').
Qed.

Lemma fill_cache_ok_iff paths files :
  forall cache,
    fst (Selectors.fill_cache paths files cache) = None
    <-> Forall (fun f => Selectors.lookup f cache <> None
                         \/ Selectors.lookup f paths <> None) files.
Proof.
  induction files as [|f files IH]; intros cache.
  - split; [constructor | reflexivity].
  - cbn [Selectors.fill_cache].
    destruct (Selectors.lookup f cache) eqn:F.
    + rewrite IH. split.
      * intros H. constructor; [left; congruence | exact H].
      * intros H. now inversion H.
    + unfold Selectors.add_file_to_dict.
      destruct (Selectors.lookup f paths) as [contents|] eqn:P.
      * rewrite IH. split.
        -- intros H. constructor; [right; congruence|].
           eapply Forall_impl; [|exact H]. intros g [G|G]; [|now right].
           destruct (String.eqb_spec g f) as [->|N]; [right; congruence|].
           left. now rewrite lookup_store_other in G.
        -- intros H. inversion H as [|? ? _ Hl]; subst.
           eapply Forall_impl; [|exact Hl]. intros g [G|G]; [|now right].
           left. destruct (String.eqb_spec g f) as [->|N];
             [now rewrite lookup_store_same
             | now rewrite lookup_store_other].
      * cbn [fst]. split; [discriminate|].
        intros H. inversion H as [|? ? [G|G] _]; subst; contradiction.
Qed.

Lemma fill_cache_covers paths files :
  forall cache,
    fst (Selectors.fill_cache paths files cache) = None ->
    Forall (fun f =>
              Selectors.lookup f (snd (Selectors.fill_cache paths files cache))
              <> None) files.
Proof.
  induction files as [|f files IH]; intros cache H; [constructor|].
  cbn [Selectors.fill_cache] in *.
  destruct (Selectors.lookup f cache) as [v|] eqn:F.
  - constructor; [|apply IH, H].
    rewrite (fill_cache_keeps paths files cache f v F). discriminate.
  - unfold Selectors.add_file_to_dict in *.
    destruct (Selectors.lookup f paths) as [contents|]; [|discriminate].
    constructor; [|apply IH, H].
    erewrite fill_cache_keeps; [discriminate|]. apply lookup_store_same.
Qed.

Lemma cached_entries_Ok files cache :
  Forall (fun f => Selectors.lookup f cache <> None) files ->
  exists entries,
    Selectors.cached_entries files cache = Ok entries
    /\ Forall2 (fun f entry => Selectors.lookup f cache = Some entry)
         files entries.
Proof.
  unfold Selectors.cached_entries.
  induction 1 as [|f files Hf _ (entries & E & F2)].
  - exists []. split; [reflexivity | constructor].
  - cbn [map_result].
    destruct (Selectors.lookup f cache) as [v|] eqn:L; [|contradiction].
    rewrite E. exists (v :: entries). split; [reflexivity|].
    constructor; assumption.
Qed.

(** X14: the file selector returns if and only if every selected file is
    cached already or is among the files read at start-up; otherwise it
    raises (the [KeyError] of line 83). *)
Theorem file_names_change_returns_iff (file_names : list string) a :
  (exists out, fst (Selectors.file_names_change file_names a) = Ok out)
  <-> Forall (showable a) file_names.
Proof.
  unfold Selectors.file_names_change, Selectors.build_string, showable.
  cbn [Selectors.path_to_contents Selectors.selected_files
       Selectors.file_to_str].
  pose proof (fill_cache_ok_iff (Selectors.path_to_contents a) file_names
                (Selectors.file_to_str a)) as I.
  pose proof (fill_cache_covers (Selectors.path_to_contents a) file_names
                (Selectors.file_to_str a)) as C.
  destruct (Selectors.fill_cache (Selectors.path_to_contents a) file_names
              (Selectors.file_to_str a)) as [[e|] cache]; cbn [fst snd] in *.
  - split.
    + intros [out H]. discriminate.
    + intros H. apply I in H. discriminate.
  - split; [intros _; now apply I|]. intros _.
    destruct (cached_entries_Ok file_names cache (C eq_refl))
      as (entries & E & _).
    rewrite E. eexists. reflexivity.
Qed.

(** X15: the file selector never drops or rewrites a cached entry: what the
    cache held for a file before the handler ran, it holds after, whether
    the handler returned or raised and whether the file is still selected. *)
Theorem file_names_change_keeps_cache (file_names : list string) a k entry :
  Selectors.lookup k (Selectors.file_to_str a) = Some entry ->
  Selectors.lookup k
    (Selectors.file_to_str (snd (Selectors.file_names_change file_names a)))
  = Some entry.
Proof.
  intros H. unfold Selectors.file_names_change, Selectors.build_string.
  cbn [Selectors.path_to_contents Selectors.selected_files
       Selectors.file_to_str].
  pose proof (fill_cache_keeps (Selectors.path_to_contents a) file_names
                (Selectors.file_to_str a) k entry H) as K.
  destruct (Selectors.fill_cache (Selectors.path_to_contents a) file_names
              (Selectors.file_to_str a)) as [[e|] cache]; cbn [snd] in *.
  - exact K.
  - destruct (Selectors.cached_entries file_names cache); exact K.
Qed.

(** X16: the file selector stores the new selection before it builds the
    text: the selection is the list it was given even when it raises on an
    unknown file, and the configuration and the contents read at start-up
    are untouched. *)
Theorem file_names_change_sets_selection (file_names : list string) a :
  let a' := snd (Selectors.file_names_change file_names a) in
  Selectors.selected_files a' = file_names
  /\ Selectors.path_to_contents a' = Selectors.path_to_contents a
  /\ Selectors.config a' = Selectors.config a
  /\ Selectors.saved a' = Selectors.saved a.
Proof.
  unfold Selectors.file_names_change, Selectors.build_string.
  cbn [Selectors.path_to_contents Selectors.selected_files
       Selectors.file_to_str].
  destruct (Selectors.fill_cache (Selectors.path_to_contents a) file_names
              (Selectors.file_to_str a)) as [[e|] cache].
  - repeat split.
  - destruct (Selectors.cached_entries file_names cache); repeat split.
Qed.

(** X17: the cache stays true to the contents read at start-up: if every
    cached entry is the entry of the file's start-up contents, the same
    holds after the file selector and after a change of repository, so that
    the previews shown after the repository changed are still those of the
    first repository. *)
Theorem cache_stays_sound (api_client : APIClient) a :
  cache_sound a ->
  (forall file_names,
     cache_sound (snd (Selectors.file_names_change file_names a)))
  /\ (forall name,
        cache_sound (snd (Selectors.repo_name_change api_client name a))).
Proof.
  intros S. split.
  - intros file_names k v.
    unfold Selectors.file_names_change, Selectors.build_string.
    cbn [Selectors.path_to_contents Selectors.selected_files
         Selectors.file_to_str].
    pose proof (fill_cache_sound (Selectors.path_to_contents a) file_names
                  (Selectors.file_to_str a) S k v) as K.
    destruct (Selectors.fill_cache (Selectors.path_to_contents a) file_names
                (Selectors.file_to_str a)) as [[e|] cache]; cbn [snd] in *.
    + exact K.
    + destruct (Selectors.cached_entries file_names cache); exact K.
  - intros name k v. unfold Selectors.repo_name_change.
    destruct (get_installation_id api_client (Some name)) as [id|e].
    + destruct (Z.eqb id 0); exact (S k v).
    + exact (S k v).
Qed.

Lemma file_entry_ends (file_name file_contents : string) :
  ends_with_backtick (Selectors.file_entry file_name file_contents).
Proof.
  unfold Selectors.file_entry. eexists.
  change "```" with ("``" ++ PyStr.backtick).
  rewrite <- !append_assoc. reflexivity.
Qed.

(** X18: with a cache true to the start-up contents, the block that the
    file selector returns decides the next search: with at least one file
    selected the next turn does not search, with none selected the block is
    the header alone and the next turn searches. *)
Theorem file_selection_decides_search (file_names : list string) a names text :
  cache_sound a ->
  fst (Selectors.file_names_change file_names a) = Ok (names, text) ->
  names = file_names
  /\ search_needed text = match file_names with
                          | [] => true
                          | _ :: _ => false
                          end.
Proof.
  intros S. unfold Selectors.file_names_change, Selectors.build_string.
  cbn [Selectors.path_to_contents Selectors.selected_files
       Selectors.file_to_str].
  pose proof (fill_cache_sound (Selectors.path_to_contents a) file_names
                (Selectors.file_to_str a) S) as K.
  pose proof (fill_cache_covers (Selectors.path_to_contents a) file_names
                (Selectors.file_to_str a)) as C.
  destruct (Selectors.fill_cache (Selectors.path_to_contents a) file_names
              (Selectors.file_to_str a)) as [[e|] cache]; cbn [fst snd] in *;
    [discriminate|].
  destruct (cached_entries_Ok file_names cache (C eq_refl))
    as (entries & E & F2).
  rewrite E. cbn [fst]. intros H. injection H as <- <-.
  split; [reflexivity|].
  assert (EB : Forall ends_with_backtick entries).
  { clear E C. induction F2 as [|g x gs xs Hg _ IH]; constructor; [|exact IH].
    destruct (K g x Hg) as (c & _ & ->). apply file_entry_ends. }
  inversion F2; subst; [reflexivity|].
  apply fenced_block_not_searched, join_ends_with_backtick, EB.
Qed.

(** *** The entry of a file *)

Lemma split_length (a : ascii) (s : string) :
  List.length (PyStr.split a s) = S (PyStr.count a s).
Proof.
  induction s as [|c s IH]; [reflexivity|].
  cbn [PyStr.split PyStr.count]. destruct (Ascii.eqb c a).
  - cbn [List.length]. now rewrite IH.
  - destruct (PyStr.split a s); [discriminate|]. exact IH.
Qed.

Lemma split_pieces (a : ascii) (s : string) :
  Forall (fun piece => PyStr.count a piece = 0) (PyStr.split a s).
Proof.
  induction s as [|c s IH]; [repeat constructor|].
  cbn [PyStr.split]. destruct (Ascii.eqb c a) eqn:E.
  - constructor; [reflexivity | exact IH].
  - destruct (PyStr.split a s) as [|p ps].
    + repeat constructor. cbn. now rewrite E.
    + inversion IH; subst. constructor; [|assumption].
      cbn [PyStr.count]. now rewrite E.
Qed.

Lemma join_split (a : ascii) (s : string) :
  PyStr.join (String a EmptyString) (PyStr.split a s) = s.
Proof.
  induction s as [|c s IH]; [reflexivity|].
  pose proof (split_length a s) as L.
  cbn [PyStr.split]. destruct (Ascii.eqb_spec c a) as [->|N].
  - destruct (PyStr.split a s) as [|p ps]; [discriminate|].
    change (String a (PyStr.join (String a EmptyString) (p :: ps))
            = String a s).
    now rewrite IH.
  - destruct (PyStr.split a s) as [|p ps]; [discriminate|].
    destruct ps as [|q ps].
    + cbn [PyStr.join] in *. now rewrite IH.
    + change (String c (PyStr.join (String a EmptyString) (p :: q :: ps))
              = String c s).
      now rewrite IH.
Qed.

Lemma count_join_pieces (a : ascii) (l : list string) :
  Forall (fun piece => PyStr.count a piece = 0) l ->
  PyStr.count a (PyStr.join (String a EmptyString) l) = pred (List.length l).
Proof.
  induction 1 as [|x l Hx Hl IH]; [reflexivity|].
  destruct l as [|y l]; [exact Hx|].
  change (PyStr.count a
            (x ++ String a EmptyString
             ++ PyStr.join (String a EmptyString) (y :: l))
          = S (pred (List.length (y :: l)))).
  rewrite !count_app, Hx, IH.
  cbn [PyStr.count]. rewrite Ascii.eqb_refl. reflexivity.
Qed.

Lemma count_replace (a c : ascii) (b s : string) :
  Ascii.eqb c a = false -> PyStr.count a b = 0 ->
  PyStr.count a (PyStr.replace c b s) = PyStr.count a s.
Proof.
  intros N B. induction s as [|x s IH]; [reflexivity|].
  cbn [PyStr.replace PyStr.count]. destruct (Ascii.eqb_spec x c) as [->|M].
  - rewrite count_app, B, IH, N. reflexivity.
  - cbn [PyStr.count]. now rewrite IH.
Qed.

Lemma replace_absent (c : ascii) (b s : string) :
  PyStr.count c s = 0 -> PyStr.replace c b s = s.
Proof.
  induction s as [|x s IH]; [reflexivity|].
  cbn [PyStr.replace PyStr.count]. destruct (Ascii.eqb x c); [discriminate|].
  intros H. now rewrite IH.
Qed.

Lemma escaped_backticks (s : string) :
  forall escaped,
    well_escaped escaped
      (PyStr.replace PyStr.backtick_char PyStr.escaped_backtick s) = true.
Proof.
  induction s as [|c s IH]; intros escaped; [reflexivity|].
  cbn [PyStr.replace]. destruct (Ascii.eqb c PyStr.backtick_char) eqn:E.
  - cbn. apply IH.
  - cbn [well_escaped]. rewrite E. apply IH.
Qed.

(** X19: the entry of a file names the file, then the number of its lines,
    which is the number of line breaks of its contents plus one, then the
    fenced preview; the preview holds at most three lines, and every
    backtick in it stands right after a backslash. *)
Theorem file_entry_shape (file_name file_contents : string) :
  Selectors.file_entry file_name file_contents
  = file_name ++ ":0:"
    ++ PyStr.of_nat (S (PyStr.count PyStr.nl_char file_contents))
    ++ PyStr.nl ++ "```python" ++ PyStr.nl ++ file_preview file_contents
    ++ PyStr.nl ++ "..." ++ PyStr.nl ++ "```"
  /\ PyStr.count PyStr.nl_char (file_preview file_contents) <= 2
  /\ well_escaped false (file_preview file_contents) = true.
Proof.
  split; [|split].
  - unfold Selectors.file_entry, file_preview. now rewrite split_length.
  - unfold file_preview. rewrite count_replace by reflexivity.
    unfold PyStr.nl. rewrite count_join_pieces.
    + pose proof (firstn_le_length 3
                    (PyStr.split PyStr.nl_char file_contents)). lia.
    + apply Forall_forall. intros x Hx.
      pose proof (split_pieces PyStr.nl_char file_contents) as P.
      rewrite Forall_forall in P. apply P.
      rewrite <- (firstn_skipn 3). apply in_or_app. now left.
  - apply escaped_backticks.
Qed.

(** X20: a file of at most three lines that holds no backtick is shown in
    full: its preview is its contents. *)
Theorem short_file_shown_in_full (file_contents : string) :
  PyStr.count PyStr.nl_char file_contents <= 2 ->
  PyStr.count PyStr.backtick_char file_contents = 0 ->
  file_preview file_contents = file_contents.
Proof.
  intros L B. unfold file_preview.
  rewrite firstn_all2 by (rewrite split_length; lia).
  unfold PyStr.nl. rewrite join_split. apply replace_absent, B.
Qed.

(** ** The repository selector, when it raises *)

(** X21: after the repository selector has run, what is saved is what is
    in memory, and the outcome can be read off the configuration: either
    the handler returned the empty string, the configuration names the
    repository with an installation id that is not 0 and no browser tab
    opened, or it raised, the configuration names no repository and no
    installation, and exactly one tab opened on the app's page. *)
Theorem repo_name_change_outcome (api_client : APIClient) name a :
  let r := fst (Selectors.repo_name_change api_client name a) in
  let a' := snd (Selectors.repo_name_change api_client name a) in
  Selectors.saved a' = Selectors.config a'
  /\ ((r = Ok EmptyString
       /\ (exists id, id <> 0%Z
                      /\ Selectors.config a'
                         = Selectors.mkConfig (Some name) (Some id)
                      /\ get_installation_id api_client (Some name) = Ok id)
       /\ Selectors.opened_tabs a' = Selectors.opened_tabs a)
      \/ ((exists e, r = Raise e)
          /\ Selectors.config a' = Selectors.mkConfig None None
          /\ Selectors.opened_tabs a'
             = (Selectors.opened_tabs a
                ++ ["https://github.com/apps/sweep-ai"])%list)).
Proof.
  unfold Selectors.repo_name_change.
  destruct (get_installation_id api_client (Some name)) as [id|e].
  - destruct (Z.eqb_spec id 0) as [->|N]; cbn.
    + split; [reflexivity|]. right. repeat split. eexists. reflexivity.
    + split; [reflexivity|]. left. repeat split. exists id. auto.
  - cbn. split; [reflexivity|]. right. repeat split. eexists. reflexivity.
Qed.

(** ** The derived branch name *)

Lemma map_chars_length (f : ascii -> ascii) (s : string) :
  String.length (PyStr.map_chars f s) = String.length s.
Proof. induction s as [|c s IH]; [reflexivity|]. cbn. now rewrite IH. Qed.

(** In ASCII text every byte is a character. *)
Lemma len_ascii (s : string) :
  PyStr.isascii s = true -> PyStr.len s = String.length s.
Proof.
  induction s as [|c s IH]; [reflexivity|].
  cbn [PyStr.isascii PyStr.len String.length]. intros H.
  apply andb_true_iff in H. destruct H as [H1 H2]. rewrite (IH H2).
  apply N.ltb_lt in H1. unfold PyStr.is_continuation. cbv zeta.
  destruct (N.leb_spec 128 (N_of_ascii c)); [lia | reflexivity].
Qed.

Lemma lower_ascii_length (unicode_lower : string -> string) (s : string) :
  PyStr.isascii s = true ->
  PyStr.len (PyStr.lower unicode_lower s) = String.length s.
Proof.
  intros H. unfold PyStr.lower. rewrite H.
  rewrite <- (map_chars_length PyStr.lower_char s). apply len_ascii.
  clear unicode_lower. induction s as [|c s IH]; [reflexivity|].
  cbn [PyStr.isascii PyStr.map_chars] in *.
  apply andb_true_iff in H. destruct H as [H1 H2]. rewrite (IH H2).
  rewrite andb_true_r. unfold PyStr.lower_char. cbv zeta.
  destruct (_ && _)%bool eqn:U; [|exact H1].
  apply andb_true_iff in U. destruct U as [_ U]. apply N.leb_le in U.
  rewrite N_ascii_embedding by lia. apply N.ltb_lt. lia.
Qed.

Lemma count_take_map (a : ascii) (f : ascii -> ascii) (n : nat) (s : string) :
  (forall c, Ascii.eqb (f c) a = false) ->
  PyStr.count a (PyStr.take n (PyStr.map_chars f s)) = 0.
Proof.
  intros H. revert n. induction s as [|c s IH]; intros n; [reflexivity|].
  cbn [PyStr.map_chars PyStr.take].
  destruct (PyStr.is_continuation (f c)).
  - cbn [PyStr.count]. now rewrite H, IH.
  - destruct n as [|n]; [reflexivity|]. cbn [PyStr.count]. now rewrite H, IH.
Qed.

Lemma underscore_no_space (c : ascii) : Ascii.eqb (underscore c) " " = false.
Proof.
  unfold underscore. destruct (Ascii.eqb c " ") eqn:S; [reflexivity|].
  cbn [orb]. destruct (Ascii.eqb c "-"); [reflexivity | exact S].
Qed.

Lemma underscore_no_hyphen (c : ascii) : Ascii.eqb (underscore c) "-" = false.
Proof.
  unfold underscore. destruct (Ascii.eqb c "-") eqn:H;
    [rewrite orb_true_r; reflexivity|].
  rewrite orb_false_r. destruct (Ascii.eqb c " "); [reflexivity | exact H].
Qed.

(** X22: the branch derived from a title holds no space and no hyphen, and
    has as many characters as the lower-cased title up to the bound of 50;
    for a title of ASCII characters that is the length of the title itself
    up to 50. *)
Theorem derived_branch_is_clean (unicode_lower : string -> string)
  (title : string) :
  PyStr.count " "%char (derive_branch unicode_lower title) = 0
  /\ PyStr.count "-"%char (derive_branch unicode_lower title) = 0
  /\ PyStr.len (derive_branch unicode_lower title)
     = Nat.min 50 (PyStr.len (PyStr.lower unicode_lower title))
  /\ (PyStr.isascii title = true ->
      PyStr.len (derive_branch unicode_lower title)
      = Nat.min 50 (String.length title)).
Proof.
  rewrite derive_branch_by_spec. unfold branch_by_spec.
  split; [|split; [|split]].
  - apply count_take_map, underscore_no_space.
  - apply count_take_map, underscore_no_hyphen.
  - now rewrite take_len_min, map_underscore_len.
  - intros A. now rewrite take_len_min, map_underscore_len, lower_ascii_length.
Qed.

(** X22, witness: a title of three ASCII characters. *)
Lemma derived_branch_is_clean_witness :
  PyStr.len (derive_branch Demo.lower "A-b") = Nat.min 50 3.
Proof.
  apply (proj2 (proj2 (proj2 (derived_branch_is_clean Demo.lower "A-b")))).
  reflexivity.
Defined.

(** Slicing counts characters, not bytes: a title of 40 characters in 52
    bytes is kept whole. *)
Example forty_characters_kept_whole (unicode_lower : string -> string) :
  let e_acute := String "195"%char (String "169"%char EmptyString) in
  let title :=
    e_acute ++ e_acute ++ e_acute ++ e_acute ++ e_acute ++ e_acute
    ++ e_acute ++ e_acute ++ e_acute ++ e_acute ++ e_acute ++ e_acute
    ++ "0123456789012345678901234567" in
  String.length title = 52
  /\ PyStr.len title = 40
  /\ PyStr.take 50 title = title.
Proof. repeat split. Qed.

(** ** A stream that breaks off *)

Section BrokenStream.

Variable api_client : APIClient.
Variable json_loads : string -> result json.
Variable repr : json -> string.
Variable get_preview : Snippet -> Z -> string.
Variable unicode_lower : string -> string.

(** X23: when the stream of an unconfirmed turn breaks off with an
    exception after its fragments, the turn ends with that exception and
    nothing of a function call is acted on: the arguments are not parsed
    and the pending proposal is what it was, even when the fragments held a
    complete create_pr call. *)
Theorem broken_stream_discards_call
  snippets_text repo_name h (user_message : string) a p st e :
  search_answers api_client snippets_text (Some user_message) ->
  unconfirmed unicode_lower p user_message ->
  streams api_client st ->
  forallb carries_arguments (fragments st) = true ->
  failure st = Some e ->
  let r := handle_message_stream api_client json_loads repr get_preview
             unicode_lower snippets_text repo_name
             (mkState (h ++ [(Some user_message, a)])%list p) in
  outcome r = Raise e /\ proposed_pr (final r) = p.
Proof.
  intros HS Hu Hst Hc Hf r. subst r.
  destruct (turn_reaches_finish api_client json_loads repr get_preview
              unicode_lower snippets_text repo_name
              h user_message a p st HS Hu Hst)
    as (t0 & h1 & acc & text & E).
  cbv zeta in E. rewrite E, Hc, Hf. split; reflexivity.
Qed.

End BrokenStream.

(** ** Worked instances *)

(** X1, witness: a call without arguments breaks the turn off; the proposal
    of an earlier turn is still there. *)
Lemma failed_turn_keeps_proposal_witness :
  proposed_pr
    (final (handle_message_stream (Demo.client Demo.bare_call_stream)
              (Demo.loads []) Demo.repr Demo.preview Demo.lower
              "### Relevant snippets" "o/r"
              (mkState [(Some "rename it", None)] (Some Demo.proposal))))
  = Some Demo.proposal.
Proof.
  apply (failed_turn_keeps_proposal (Demo.client Demo.bare_call_stream)
           (Demo.loads []) Demo.repr Demo.preview Demo.lower
             "### Relevant snippets"
           "o/r" (mkState [(Some "rename it", None)] (Some Demo.proposal))
           TypeError).
  reflexivity.
Defined.

(** X2, witness: the two fragments of the function-call example. *)
Lemma loop_keeps_first_name_witness :
  exists fn',
    outcome (consume_chunks "### Relevant snippets"
               (fragments Demo.call_stream) (Some EmptyString) EmptyString
               (mkState ([] ++ [(None, Some EmptyString)])%list None))
    = Ok (fn',
          (EmptyString ++ all_arguments (fragments Demo.call_stream))%string)
    /\ fn' = Some "create_pr".
Proof.
  destruct (loop_keeps_first_name "### Relevant snippets"
              (fragments Demo.call_stream) (Some EmptyString) EmptyString
              [] None EmptyString None eq_refl) as (fn' & H1 & _ & H3).
  exists fn'. split; [exact H1 | exact (H3 eq_refl)].
Defined.


(** X4, witness: the arguments of the example, with a parser that does not
    know them. *)
Lemma malformed_arguments_abort_witness :
  let r := handle_message_stream (Demo.client Demo.call_stream)
             (Demo.loads []) Demo.repr Demo.preview Demo.lower
             "### Relevant snippets" "o/r"
             (mkState ([] ++ [(Some "add tests", None)])%list None) in
  outcome r = Raise JSONDecodeError /\ proposed_pr (final r) = None.
Proof.
  apply (malformed_arguments_abort (Demo.client Demo.call_stream)
           (Demo.loads []) Demo.repr Demo.preview Demo.lower
             "### Relevant snippets"
           "o/r" [] "add tests" None None Demo.call_stream "create_pr"
           JSONDecodeError).
  - intros _. exists [Demo.snippet]. reflexivity.
  - left. reflexivity.
  - intros messages snippets. reflexivity.
  - reflexivity.
  - reflexivity.
  - reflexivity.
  - reflexivity.
Defined.

(** X5, witness: a function that the UI does not know. *)
Lemma unknown_function_is_refused_witness :
  let r := handle_message_stream (Demo.client Outage.other_call_stream)
             (Demo.loads [("{}", JObj [])]) Demo.repr Demo.preview Demo.lower
             "### Relevant snippets" "o/r"
             (mkState ([] ++ [(Some "drop it", None)])%list None) in
  outcome r = Raise NotImplementedError /\ proposed_pr (final r) = None.
Proof.
  apply (unknown_function_is_refused (Demo.client Outage.other_call_stream)
           (Demo.loads [("{}", JObj [])]) Demo.repr Demo.preview Demo.lower
           "### Relevant snippets" "o/r" [] "drop it" None None
           Outage.other_call_stream "delete_repo" (JObj [])).
  - intros _. exists [Demo.snippet]. reflexivity.
  - left. reflexivity.
  - intros messages snippets. reflexivity.
  - reflexivity.
  - reflexivity.
  - reflexivity.
  - discriminate.
  - reflexivity.
Defined.

(** X6, witness: the first message of a session while the search is down. *)
Lemma search_failure_ends_turn_witness :
  outcome (handle_message_stream (Outage.client Demo.quiet) (Demo.loads [])
             Demo.repr Demo.preview Demo.lower "### Relevant snippets" "o/r"
             (mkState ([] ++ [(Some "hi", None)])%list None))
  = Raise (RemoteError "search is down").
Proof.
  rewrite (search_failure_ends_turn (Outage.client Demo.quiet) (Demo.loads [])
             Demo.repr Demo.preview Demo.lower "### Relevant snippets" "o/r" []
             (Some "hi") None None (RemoteError "search is down")
             eq_refl eq_refl).
  reflexivity.
Defined.

(** X7, witness: the proposal of the examples, confirmed while the
    pull-request service is down. *)
Lemma create_pr_failure_keeps_proposal_witness :
  let r := handle_message_stream (Outage.client Demo.quiet) (Demo.loads [])
             Demo.repr Demo.preview Demo.lower Outage.rendered_block "o/r"
             (mkState ([] ++ [(Some "ok", None)])%list (Some Demo.proposal)) in
  outcome r = Raise (RemoteError "create_pr is down")
  /\ final r = mkState ([] ++ [(Some "ok", Some creating_pr)])%list
                 (Some Demo.proposal).
Proof.
  intros r.
  destruct (create_pr_failure_keeps_proposal (Outage.client Demo.quiet)
              (Demo.loads []) Demo.repr Demo.preview Demo.lower
                Outage.rendered_block
              "o/r" [] "ok" None Demo.proposal
              (RemoteError "create_pr is down")) as (H1 & H2 & _).
  - intros H. vm_compute in H. discriminate.
  - left. reflexivity.
  - reflexivity.
  - reflexivity.
  - intros requests pr messages. reflexivity.
  - split; [exact H1 | exact H2].
Defined.

(** X8, witness: a service that answers with an empty object. *)
Lemma response_without_url_raises_witness :
  outcome (handle_message_stream (Outage.mute_client Demo.quiet)
             (Demo.loads []) Demo.repr Demo.preview Demo.lower
               Outage.rendered_block
             "o/r"
             (mkState ([] ++ [(Some "ok", None)])%list (Some Demo.proposal)))
  = Raise KeyError.
Proof.
  apply (response_without_url_raises (Outage.mute_client Demo.quiet)
           (Demo.loads []) Demo.repr Demo.preview Demo.lower
             Outage.rendered_block
           "o/r" [] "ok" None Demo.proposal (JObj []) KeyError).
  - intros H. vm_compute in H. discriminate.
  - left. reflexivity.
  - reflexivity.
  - reflexivity.
  - intros requests pr messages. reflexivity.
  - reflexivity.
Defined.

(** X9, witness: the stream handler on the empty history of a cleared
    chat, with the initial block. *)
Lemma empty_history_raises_witness :
  handle_message_stream (Demo.client Demo.quiet) (Demo.loads []) Demo.repr
    Demo.preview Demo.lower "### Relevant snippets" "o/r" (mkState [] None)
  = (Raise IndexError, mkState [] None, [Yield [] "### Relevant snippets"]).
Proof.
  apply (empty_history_raises (Demo.client Demo.quiet) (Demo.loads [])
           Demo.repr Demo.preview Demo.lower "### Relevant snippets" "o/r"
             None).
  reflexivity.
Defined.

(** X10, witness: a plain message answered by the content example. *)
Lemma unconfirmed_turn_adds_one_row_witness :
  exists a' reply_text,
    chat_history
      (final (handle_message_stream (Demo.client Demo.hello_stream)
                (Demo.loads []) Demo.repr Demo.preview Demo.lower
                "### Relevant snippets" "o/r"
                (mkState ([] ++ [(Some "hi", None)])%list None)))
    = ([] ++ [(Some "hi", a'); (None, reply_text)])%list.
Proof.
  apply (unconfirmed_turn_adds_one_row (Demo.client Demo.hello_stream)
           (Demo.loads []) Demo.repr Demo.preview Demo.lower
             "### Relevant snippets"
           "o/r" [] "hi" None None).
  - intros _. exists [Demo.snippet]. reflexivity.
  - left. reflexivity.
Defined.

(** X12, witness: a session of one turn, the function-call example. *)
Lemma pending_proposal_is_well_formed_witness :
  exists requests title summary branch,
    file_change_requests (Py.dict_set "branch" (JStr "x")
                            [("title", JStr "X"); ("summary", JStr "S");
                             ("plan", JArr [])])
    = Ok requests
    /\ Py.dict_get "title" (Py.dict_set "branch" (JStr "x")
                              [("title", JStr "X"); ("summary", JStr "S");
                               ("plan", JArr [])]) = Some title
    /\ Py.dict_get "summary" (Py.dict_set "branch" (JStr "x")
                                [("title", JStr "X"); ("summary", JStr "S");
                                 ("plan", JArr [])]) = Some summary
    /\ Py.dict_get "branch" (Py.dict_set "branch" (JStr "x")
                               [("title", JStr "X"); ("summary", JStr "S");
                                ("plan", JArr [])]) = Some branch.
Proof.
  apply (pending_proposal_is_well_formed (Demo.client Demo.call_stream)
           (Demo.loads [((Demo.first_part ++ Demo.second_part)%string,
                         Demo.parsed)])
           Demo.repr Demo.preview Demo.lower
           [("### Relevant snippets", "o/r", [(Some "add tests", None)])]).
  reflexivity.
Defined.

(** X15, witness: the file of the example, selected and then deselected. *)
Lemma file_names_change_keeps_cache_witness :
  Selectors.lookup "a.py"
    (Selectors.file_to_str
       (snd (Selectors.file_names_change []
               (snd (Selectors.file_names_change ["a.py"] Demo.start)))))
  = Some (Selectors.file_entry "a.py" "x = 1").
Proof.
  apply (file_names_change_keeps_cache []
           (snd (Selectors.file_names_change ["a.py"] Demo.start)) "a.py"
           (Selectors.file_entry "a.py" "x = 1")).
  reflexivity.
Defined.

(** X17, witness: the application at start-up, whose cache is empty. *)
Lemma cache_stays_sound_witness :
  cache_sound (snd (Selectors.file_names_change ["a.py"] Demo.start)).
Proof.
  apply (cache_stays_sound (Demo.client Demo.quiet) Demo.start).
  intros file_name entry H. discriminate.
Defined.

(** X18, witness: one file selected at start-up. *)
Lemma file_selection_decides_search_witness :
  search_needed
    (snd (match fst (Selectors.file_names_change ["a.py"] Demo.start) with
          | Ok out => out
          | Raise _ => ([], EmptyString)
          end))
  = false.
Proof.
  apply (file_selection_decides_search ["a.py"] Demo.start ["a.py"]).
  - intros file_name entry H. discriminate.
  - reflexivity.
Defined.

(** X20, witness: the file of the example. *)
Lemma short_file_shown_in_full_witness : file_preview "x = 1" = "x = 1".
Proof.
  apply (short_file_shown_in_full "x = 1").
  - cbn. lia.
  - reflexivity.
Defined.

(** X23, witness: the function-call example, cut off after its last
    fragment. *)
Lemma broken_stream_discards_call_witness :
  let st := mkStream (fragments Demo.call_stream)
              (Some (RemoteError "connection lost")) in
  let r := handle_message_stream (Demo.client st)
             (Demo.loads [((Demo.first_part ++ Demo.second_part)%string,
                           Demo.parsed)])
             Demo.repr Demo.preview Demo.lower "### Relevant snippets" "o/r"
             (mkState ([] ++ [(Some "add tests", None)])%list None) in
  outcome r = Raise (RemoteError "connection lost")
  /\ proposed_pr (final r) = None.
Proof.
  intros st.
  apply (broken_stream_discards_call (Demo.client st)
           (Demo.loads [((Demo.first_part ++ Demo.second_part)%string,
                         Demo.parsed)])
           Demo.repr Demo.preview Demo.lower "### Relevant snippets" "o/r" []
           "add tests" None None st (RemoteError "connection lost")).
  - intros _. exists [Demo.snippet]. reflexivity.
  - left. reflexivity.
  - intros messages snippets. reflexivity.
  - reflexivity.
  - reflexivity.
Defined.
